(** * focusSafely: a shallow embedding of
      packages/@react-aria/focus/src/focusSafely.ts

    The module moves input focus to an element.  Depending on the current
    interaction modality it either focuses at once or defers the focus until
    running CSS transitions are over, and it may hand the element to a shared
    IntersectionObserver whose callback scrolls the element into view.

    The TypeScript code is effectful: it reads ambient state (the interaction
    modality, [document.activeElement], the DOM tree), calls host primitives
    and can throw.  It is embedded in a small state / error / trace monad
    [M]: a computation takes a [World], returns a result or a thrown error,
    the new world, and the list of primitive calls it made, in order. *)

From stdpp Require Import base decidable option list gmap sets strings.
From Stdlib Require Import ZArith QArith Lia Ascii.

Local Open Scope Z_scope.

(** ** DOM *)

(** Elements are opaque handles. *)
Definition Element := positive.

(** A node is the document or an element; [null] is [None] at type
    [option Node] or [option Element]. *)
Inductive Node :=
| Document
| Elem (el : Element).

#[global] Instance Node_eq_dec : EqDecision Node.
Proof. solve_decision. Defined.

Inductive Modality := Keyboard | Pointer | Virtual | Unknown.

#[global] Instance Modality_eq_dec : EqDecision Modality.
Proof. solve_decision. Defined.

(** A box of the layout, in CSS pixels. *)
Record Rect := mkRect { r_left : Z; r_top : Z; r_width : Z; r_height : Z }.

Definition r_right (r : Rect) : Z := r_left r + r_width r.
Definition r_bottom (r : Rect) : Z := r_top r + r_height r.

(** ** Options records of the source *)

Inductive ScrollBehavior := BehaviorAuto | BehaviorSmooth | BehaviorInstant.
Inductive ScrollLogicalPosition := PosStart | PosCenter | PosEnd | PosNearest.

Record ScrollIntoViewOptions := {
  behavior : ScrollBehavior;
  block : ScrollLogicalPosition;
  inline : ScrollLogicalPosition
}.

Record IntersectionObserverInit := {
  root : option Element;
  rootMargin : string;
  threshold : Q
}.

#[global] Instance ScrollBehavior_eq_dec : EqDecision ScrollBehavior.
Proof. solve_decision. Defined.
#[global] Instance ScrollLogicalPosition_eq_dec : EqDecision ScrollLogicalPosition.
Proof. solve_decision. Defined.
#[global] Instance ScrollIntoViewOptions_eq_dec : EqDecision ScrollIntoViewOptions.
Proof. solve_decision. Defined.

(** ** Deferred callbacks and the trace of primitive calls *)

(** The two closures the module passes to [runAfterTransition], as data:
    the closure of lines 63-71, which captures [lastFocusedElement] and
    [element], and the closure of line 35, which captures [entry.target] and
    [scrollIntoViewOptions]. *)
Inductive Task :=
| FocusIfUnchanged (lastFocusedElement : option Element) (element : Element)
| ScrollEntryIntoView (target : Element) (options : ScrollIntoViewOptions).

#[global] Instance Task_eq_dec : EqDecision Task.
Proof. solve_decision. Defined.

(** One constructor per imported or host function the module calls. *)
Inductive Event :=
| GetInteractionModality
| FocusWithoutScrolling (el : Element)
| RunAfterTransition (t : Task)
| Observe (el : Element)
| Unobserve (el : Element)
| ScrollIntoView (el : Element) (options : ScrollIntoViewOptions).

#[global] Instance Event_eq_dec : EqDecision Event.
Proof. solve_decision. Defined.

(** ** The world the module runs in *)

Record World := mkWorld {
  (** state of the interaction tracker of @react-aria/interactions *)
  currentModality : Modality;
  (** [document.activeElement] *)
  activeElement : option Element;
  (** the [parentNode] pointer of every element that has a parent *)
  parentNode : gmap Element Node;
  (** the box of every rendered element, and the viewport *)
  layout : gmap Element Rect;
  viewport : Rect;
  (** the observation targets of the shared IntersectionObserver *)
  observationTargets : gset Element;
  (** the callbacks [runAfterTransition] holds until transitions are over *)
  transitionCallbacks : list Task
}.

Definition set_activeElement (a : option Element) (w : World) : World :=
  mkWorld (currentModality w) a (parentNode w) (layout w) (viewport w)
          (observationTargets w) (transitionCallbacks w).

Definition set_observationTargets (s : gset Element) (w : World) : World :=
  mkWorld (currentModality w) (activeElement w) (parentNode w) (layout w)
          (viewport w) s (transitionCallbacks w).

Definition set_transitionCallbacks (q : list Task) (w : World) : World :=
  mkWorld (currentModality w) (activeElement w) (parentNode w) (layout w)
          (viewport w) (observationTargets w) q.

(** [Node.contains]: [other] is [this] or a descendant of it.  The walk
    follows [parentNode] from [other] upwards; a chain without a cycle is
    no longer than the number of parent pointers, which bounds the fuel. *)
Fixpoint climbs_to (fuel : nat) (parents : gmap Element Node)
    (this other : Node) : bool :=
  if decide (this = other) then true
  else match fuel, other with
       | S fuel', Elem el =>
           match parents !! el with
           | Some p => climbs_to fuel' parents this p
           | None => false
           end
       | _, _ => false
       end.

Definition contains (w : World) (this other : Node) : bool :=
  climbs_to (S (size (parentNode w))) (parentNode w) this other.

(** ** The monad *)

Inductive JsError := TypeError | ReferenceError | SyntaxError | RangeError.

Inductive Result (A : Type) :=
| Ok (a : A)
| Throw (e : JsError).
Arguments Ok {A} a.
Arguments Throw {A} e.

Record Run (A : Type) := mkRun {
  outcome : Result A;
  final : World;
  emitted : list Event
}.
Arguments mkRun {A} _ _ _.
Arguments outcome {A} _.
Arguments final {A} _.
Arguments emitted {A} _.

Definition M (A : Type) : Type := World -> Run A.

Definition ret {A} (a : A) : M A := fun w => mkRun (Ok a) w [].

Definition throw {A} (e : JsError) : M A := fun w => mkRun (Throw e) w [].

Definition bind {A B} (m : M A) (k : A -> M B) : M B := fun w =>
  let r := m w in
  match outcome r with
  | Ok a =>
      let r' := k a (final r) in
      mkRun (outcome r') (final r') (emitted r ++ emitted r')
  | Throw e => mkRun (Throw e) (final r) (emitted r)
  end.

Declare Scope js_scope.
Delimit Scope js_scope with js.
Notation "'let*' x ':=' m 'in' k" := (bind m (fun x => k))
  (at level 10, x name, m at level 100, k at level 200) : js_scope.
Notation "m ;;; k" := (bind m (fun _ => k))
  (at level 100, k at level 200, right associativity) : js_scope.
Local Open Scope js_scope.

(** [if (c) body] without an else branch. *)
Definition when (c : bool) (body : M unit) : M unit :=
  if c then body else ret tt.

(** [a || b] and [a && b] evaluate [b] only when [a] does not decide. *)
Definition orM (a b : M bool) : M bool :=
  let* x := a in if x then ret true else b.

Definition andM (a b : M bool) : M bool :=
  let* x := a in if x then b else ret false.

Definition notM (a : M bool) : M bool :=
  let* x := a in ret (negb x).

(** [entries.forEach(f)] *)
Fixpoint forEach {A} (l : list A) (f : A -> M unit) : M unit :=
  match l with
  | [] => ret tt
  | x :: rest => f x ;;; forEach rest f
  end.

(** ** Host and library primitives

    None of these is defined in focusSafely.ts: they are the imports of
    lines 13-15 and the browser's DOM API. *)

(** Modelled from the spec: the interaction-modality tracker
    (@react-aria/interactions) "exposes a query returning the current modality
    enum"; it is a read-only dependency. *)
Definition getInteractionModality : M Modality := fun w =>
  mkRun (Ok (currentModality w)) w [GetInteractionModality].

(** [document.activeElement], a property read. *)
Definition document_activeElement : M (option Element) := fun w =>
  mkRun (Ok (activeElement w)) w [].

(** [document.contains(element)] *)
Definition document_contains (element : Element) : M bool := fun w =>
  mkRun (Ok (contains w Document (Elem element))) w [].

(** [this.contains(other)] on a reference that may be [null]: reading a
    property of [null] throws a TypeError, and [contains(null)] is [false]. *)
Definition node_contains (this other : option Element) : M bool :=
  match this with
  | None => throw TypeError
  | Some a =>
      match other with
      | None => ret false
      | Some b => fun w => mkRun (Ok (contains w (Elem a) (Elem b))) w []
      end
  end.

(** Modelled from the spec: the host focus primitive (focusWithoutScrolling
    of @react-aria/utils) "moves focus to element X without triggering default
    scroll-into-view" and is "assumed always to succeed on an attached
    element"; on a detached element the browser's [focus()] does nothing. *)
Definition focusWithoutScrolling (element : Element) : M unit := fun w =>
  mkRun (Ok tt)
        (if contains w Document (Elem element)
         then set_activeElement (Some element) w else w)
        [FocusWithoutScrolling element].

(** Modelled from the spec: the transition-completion scheduler
    (runAfterTransition of @react-aria/utils) runs "this callback once, after
    any currently-active visual transitions complete", "on a future turn of
    the event loop, not synchronously within the same call".  The call only
    queues the callback. *)
Definition runAfterTransition (callback : Task) : M unit := fun w =>
  mkRun (Ok tt)
        (set_transitionCallbacks (transitionCallbacks w ++ [callback]) w)
        [RunAfterTransition callback].

(** Modelled from the spec: the "scroll-into-view correction" of the host,
    [target.scrollIntoView(options)]; the model records the call and leaves
    the layout as it is. *)
Definition scrollIntoView (target : Element) (options : ScrollIntoViewOptions)
    : M unit := fun w =>
  mkRun (Ok tt) w [ScrollIntoView target options].

(** *** The IntersectionObserver of the host *)

Inductive Length := Px (n : Z) | Percent (n : Z).

Record Margins := {
  margin_top : Length;
  margin_right : Length;
  margin_bottom : Length;
  margin_left : Length
}.

(** The observer object: the options as the constructor parsed them.  Its
    callback is [intersectionObserverCallback] below, and its set of
    observation targets is the world's [observationTargets]. *)
Record IntersectionObserver := {
  io_root : option Element;
  io_rootMargin : Margins;
  io_threshold : Q
}.

Definition digit_of (c : ascii) : option Z :=
  let n := Z.of_nat (nat_of_ascii c) in
  if (48 <=? n) && (n <=? 57) then Some (n - 48) else None.

Fixpoint parse_number (s : string) (acc : option Z) : option Z * string :=
  match s with
  | String c rest =>
      match digit_of c with
      | Some d => parse_number rest (Some (10 * default 0 acc + d))
      | None => (acc, s)
      end
  | EmptyString => (acc, s)
  end.

Definition parse_length (tok : string) : option Length :=
  let '(negative, body) :=
    match tok with
    | String "-"%char rest => (true, rest)
    | _ => (false, tok)
    end in
  match parse_number body None with
  | (Some n, suffix) =>
      let v := if negative then - n else n in
      if String.eqb suffix "px" then Some (Px v)
      else if String.eqb suffix "%" then Some (Percent v)
      else None
  | (None, _) => None
  end.

Fixpoint tokens (s cur : string) : list string :=
  match s with
  | EmptyString => if String.eqb cur EmptyString then [] else [cur]
  | String c rest =>
      if Ascii.eqb c " "%char
      then (if String.eqb cur EmptyString then [] else [cur])
           ++ tokens rest EmptyString
      else tokens rest (cur +:+ String c EmptyString)
  end.

(** One to four lengths, read as the CSS margin shorthand. *)
Definition parse_rootMargin (s : string) : option Margins :=
  match mapM parse_length (tokens s EmptyString) with
  | Some [] => Some (Build_Margins (Px 0) (Px 0) (Px 0) (Px 0))
  | Some [a] => Some (Build_Margins a a a a)
  | Some [v; h] => Some (Build_Margins v h v h)
  | Some [t; h; b] => Some (Build_Margins t h b h)
  | Some [t; r; b; l] => Some (Build_Margins t r b l)
  | _ => None
  end.

(** What the host offers: whether the [IntersectionObserver] constructor
    exists at all. *)
Record Host := { hasIntersectionObserver : bool }.

(** Modelled from the spec: "construction of the watcher may fail
    (unsupported environment)".  [new IntersectionObserver(callback, options)]
    throws where the constructor is not defined (ReferenceError), where
    [rootMargin] does not parse (SyntaxError) and where the threshold is
    outside [0, 1] (RangeError). *)
Definition new_IntersectionObserver (host : Host)
    (options : IntersectionObserverInit) : Result IntersectionObserver :=
  if negb (hasIntersectionObserver host) then Throw ReferenceError
  else match parse_rootMargin (rootMargin options) with
       | None => Throw SyntaxError
       | Some m =>
           if Qle_bool 0 (threshold options) && Qle_bool (threshold options) 1
           then Ok {| io_root := root options;
                      io_rootMargin := m;
                      io_threshold := threshold options |}
           else Throw RangeError
       end.

(** Modelled from the spec: "registration/unregistration of an element with
    the watcher is the only mutation of this shared resource":
    [observer.observe(target)] and [observer.unobserve(target)]. *)
Definition observe (observer : IntersectionObserver) (target : Element)
    : M unit := fun w =>
  mkRun (Ok tt)
        (set_observationTargets (observationTargets w ∪ {[target]}) w)
        [Observe target].

Definition unobserve (observer : IntersectionObserver) (target : Element)
    : M unit := fun w =>
  mkRun (Ok tt)
        (set_observationTargets (observationTargets w ∖ {[target]}) w)
        [Unobserve target].

Record IntersectionObserverEntry := {
  entry_target : Element;
  isIntersecting : bool
}.

(** [try { ... } catch (err) { ... }] around an expression that has no
    effect on the world. *)
Definition try_catch {A} (body : Result A) (handler : JsError -> A) : A :=
  match body with
  | Ok a => a
  | Throw e => handler e
  end.

Definition Result_map {A B} (f : A -> B) (r : Result A) : Result B :=
  match r with
  | Ok a => Ok (f a)
  | Throw e => Throw e
  end.

(** *** Layout seen by the observer *)

Definition resolve (l : Length) (basis : Z) : Z :=
  match l with
  | Px n => n
  | Percent n => n * basis / 100
  end.

Definition grow (m : Margins) (r : Rect) : Rect :=
  let t := resolve (margin_top m) (r_width r) in
  let e := resolve (margin_right m) (r_width r) in
  let b := resolve (margin_bottom m) (r_width r) in
  let s := resolve (margin_left m) (r_width r) in
  mkRect (r_left r - s) (r_top r - t) (r_width r + s + e) (r_height r + t + b).

(** The root is the viewport when [root] is undefined. *)
Definition rootBounds (observer : IntersectionObserver) (w : World) : Rect :=
  grow (io_rootMargin observer)
       (match io_root observer with
        | None => viewport w
        | Some el => default (mkRect 0 0 0 0) (layout w !! el)
        end).

Definition overlap (a1 a2 b1 b2 : Z) : Z :=
  Z.max 0 (Z.min a2 b2 - Z.max a1 b1).

Definition area (r : Rect) : Z := r_width r * r_height r.

Definition intersectionArea (box bounds : Rect) : Z :=
  overlap (r_left box) (r_right box) (r_left bounds) (r_right bounds)
  * overlap (r_top box) (r_bottom box) (r_top bounds) (r_bottom bounds).

(** The two boxes intersect or share an edge. *)
Definition touches (box bounds : Rect) : bool :=
  (Z.max (r_left box) (r_left bounds) <=? Z.min (r_right box) (r_right bounds))
  && (Z.max (r_top box) (r_top bounds) <=? Z.min (r_bottom box) (r_bottom bounds)).

Definition intersectionRatio (box bounds : Rect) : Q :=
  if area box =? 0 then (if touches box bounds then 1%Q else 0%Q)
  else (inject_Z (intersectionArea box bounds) / inject_Z (area box))%Q.


(** Modelled from the spec: the host visibility-observation primitive
    notifies "with a given visibility threshold and margin"; an element "not
    currently intersecting the viewport at full visibility" is reported as
    not intersecting.  An element is reported as intersecting when it is in
    the document, rendered, and the visible fraction of its box reaches the
    observer's threshold. *)
Definition host_isIntersecting (observer : IntersectionObserver) (w : World)
    (target : Element) : bool :=
  match layout w !! target with
  | Some box =>
      contains w Document (Elem target)
      && touches box (rootBounds observer w)
      && Qle_bool (io_threshold observer)
                  (intersectionRatio box (rootBounds observer w))
  | None => false
  end.

Definition host_entry (observer : IntersectionObserver) (w : World)
    (target : Element) : IntersectionObserverEntry :=
  {| entry_target := target;
     isIntersecting := host_isIntersecting observer w target |}.

(** ** The module: focusSafely.ts *)

(** lines 19-23 *)
Definition intersectionObserverOptions : IntersectionObserverInit :=
  {| root := None; rootMargin := "0px"; threshold := 1 |}.

(** lines 25-29 *)
Definition scrollIntoViewOptions : ScrollIntoViewOptions :=
  {| behavior := BehaviorAuto; block := PosNearest; inline := PosNearest |}.

(** lines 31-39 *)
Definition intersectionObserverCallback
    (entries : list IntersectionObserverEntry)
    (observer : IntersectionObserver) : M unit :=
  forEach entries (fun entry =>
    when (negb (isIntersecting entry))
         (runAfterTransition
            (ScrollEntryIntoView (entry_target entry) scrollIntoViewOptions)) ;;;
    unobserve observer (entry_target entry)).

Section FocusSafely.

Variable host : Host.

(** lines 18-46: the module-level constant, [undefined] is [None]. *)
Definition intersectionObserver : option IntersectionObserver :=
  try_catch
    (Result_map Some (new_IntersectionObserver host intersectionObserverOptions))
    (fun err => None).

(** The body of a deferred callback. *)
Definition callTask (t : Task) : M unit :=
  match t with
  | FocusIfUnchanged lastFocusedElement element =>
      (* lines 64-70 *)
      let* active := document_activeElement in
      let* go := andM (ret (bool_decide (active = lastFocusedElement)))
                      (document_contains element) in
      when go
        (focusWithoutScrolling element ;;;
         match intersectionObserver with
         | Some observer => observe observer element
         | None => ret tt
         end)
  | ScrollEntryIntoView target options =>
      (* line 35 *)
      scrollIntoView target options
  end.

(** lines 53-89 *)
Definition focusSafely (element : Element) : M unit :=
  let* modality := getInteractionModality in
  let* lastFocusedElement := document_activeElement in
  if decide (modality = Virtual) then
    runAfterTransition (FocusIfUnchanged lastFocusedElement element)
  else
    focusWithoutScrolling element ;;;
    match intersectionObserver with
    | Some observer =>
        let* register :=
          orM (ret (bool_decide (modality ≠ Pointer)))
              (notM (orM (node_contains lastFocusedElement (Some element))
                    (orM (node_contains (Some element) lastFocusedElement)
                         (ret (bool_decide (Some element = lastFocusedElement))))))
        in
        when register (observe observer element)
    | None => ret tt
    end.

(** ** The event loop around the module *)

(** What can happen next: some caller invokes [focusSafely]; the scheduler
    runs the [i]-th callback it holds, once, and drops it; the observer
    reports on some of its targets; or code outside the module and the user
    change the modality, the focus, the DOM and the layout. *)
Inductive Action :=
| CallFocusSafely (element : Element)
| TransitionsOver (i : nat)
| IntersectionReport (targets : list Element)
| Elsewhere (modality : Modality) (active : option Element)
            (parents : gmap Element Node) (boxes : gmap Element Rect)
            (view : Rect).

(** Modelled from the spec: the observer reports only on elements it
    observes, each at most once per report, and only where it exists. *)
Definition step (a : Action) (w : World) : option (Run unit) :=
  match a with
  | CallFocusSafely element => Some (focusSafely element w)
  | TransitionsOver i =>
      match transitionCallbacks w !! i with
      | Some t =>
          Some (callTask t
                  (set_transitionCallbacks (delete i (transitionCallbacks w)) w))
      | None => None
      end
  | IntersectionReport targets =>
      match intersectionObserver with
      | Some observer =>
          if bool_decide (NoDup targets ∧
                          Forall (fun t => t ∈ observationTargets w) targets)
          then Some (intersectionObserverCallback
                       (map (host_entry observer w) targets) observer w)
          else None
      | None => None
      end
  | Elsewhere modality active parents boxes view =>
      Some (mkRun (Ok tt)
                  (mkWorld modality active parents boxes view
                           (observationTargets w) (transitionCallbacks w))
                  [])
  end.

(** The runs of a sequence of actions; an action that cannot happen in the
    world it meets is skipped, and a call that throws leaves the world to
    the next action as it was when the error was thrown. *)
Fixpoint play (actions : list Action) (w : World) : list (Run unit) :=
  match actions with
  | [] => []
  | a :: rest =>
      match step a w with
      | Some r => r :: play rest (final r)
      | None => play rest w
      end
  end.

End FocusSafely.

(** ** Reading traces *)

Definition is_focus (e : Event) : bool :=
  match e with FocusWithoutScrolling _ => true | _ => false end.

Definition is_scroll (e : Event) : bool :=
  match e with ScrollIntoView _ _ => true | _ => false end.

Definition is_observe (e : Event) : bool :=
  match e with Observe _ => true | _ => false end.

Definition is_modality_read (e : Event) : bool :=
  match e with GetInteractionModality => true | _ => false end.

(** The callbacks a trace hands to [runAfterTransition]. *)
Definition scheduled (evs : list Event) : list Task :=
  omap (fun e => match e with RunAfterTransition t => Some t | _ => None end) evs.

Definition count_focus (evs : list Event) : nat :=
  length (List.filter is_focus evs).

(** The element a primitive call acts on is [element]; reading the modality
    acts on none. *)
Definition acts_on (element : Element) (e : Event) : Prop :=
  match e with
  | GetInteractionModality => True
  | FocusWithoutScrolling el => el = element
  | RunAfterTransition (FocusIfUnchanged _ el) => el = element
  | RunAfterTransition (ScrollEntryIntoView el _) => el = element
  | Observe el => el = element
  | Unobserve el => el = element
  | ScrollIntoView el _ => el = element
  end.

(** A queued callback that scrolls. *)
Definition is_correction (t : Task) : bool :=
  match t with ScrollEntryIntoView _ _ => true | _ => false end.

(** A run without error that neither registers nor scrolls, nor leaves a
    scrolling callback behind. *)
Definition quiet (r : Run unit) : Prop :=
  outcome r = Ok tt /\
  List.filter is_observe (emitted r) = [] /\
  List.filter is_scroll (emitted r) = [] /\
  List.filter is_correction (scheduled (emitted r)) = [].

(** The previously focused element and the target stand in an ancestor,
    descendant or identity relationship. *)
Definition related (w : World) (previous element : Element) : bool :=
  contains w (Elem previous) (Elem element)
  || contains w (Elem element) (Elem previous)
  || bool_decide (element = previous).

(** What the watcher's callback does with one entry: the callbacks it hands
    to [runAfterTransition], the calls it makes, the world it leaves. *)
Definition correction (entry : IntersectionObserverEntry) : list Task :=
  if isIntersecting entry then []
  else [ScrollEntryIntoView (entry_target entry) scrollIntoViewOptions].

Definition entry_events (entry : IntersectionObserverEntry) : list Event :=
  map RunAfterTransition (correction entry) ++ [Unobserve (entry_target entry)].

Definition entry_world (entry : IntersectionObserverEntry) (w : World) : World :=
  set_observationTargets
    (observationTargets w ∖ {[entry_target entry]})
    (if isIntersecting entry then w
     else set_transitionCallbacks (transitionCallbacks w ++ correction entry) w).

Definition corrections (entries : list IntersectionObserverEntry) : list Task :=
  flat_map correction entries.

Definition no_margins : Margins :=
  {| margin_top := Px 0; margin_right := Px 0;
     margin_bottom := Px 0; margin_left := Px 0 |}.

(** ** A small page to evaluate the module on

    [html] (1) holds [body] (2), which holds a button (3) with a label (4)
    inside it and a panel (5) that reaches below the viewport; element 6 is
    not attached to the document. *)

Definition example_page : gmap Element Node :=
  <[1%positive := Document]>
    (<[2%positive := Elem 1%positive]>
       (<[3%positive := Elem 2%positive]>
          (<[4%positive := Elem 3%positive]>
             (<[5%positive := Elem 2%positive]> ∅)))).

Definition example_boxes : gmap Element Rect :=
  <[3%positive := mkRect 10 10 100 20]>
    (<[4%positive := mkRect 12 12 60 16]>
       (<[5%positive := mkRect 10 700 100 200]> ∅)).

Definition example_world (m : Modality) (active : option Element) : World :=
  mkWorld m active example_page example_boxes (mkRect 0 0 1024 768) ∅ [].

Definition supporting_host : Host := {| hasIntersectionObserver := true |}.
Definition bare_host : Host := {| hasIntersectionObserver := false |}.


(** ** The elements a run touches *)

(** The element a queued callback will act on. *)
Definition task_target (t : Task) : Element :=
  match t with
  | FocusIfUnchanged _ element => element
  | ScrollEntryIntoView target _ => target
  end.

(** The element a primitive call is made on, if any. *)
Definition event_target (e : Event) : option Element :=
  match e with
  | GetInteractionModality => None
  | FocusWithoutScrolling el => Some el
  | RunAfterTransition t => Some (task_target t)
  | Observe el => Some el
  | Unobserve el => Some el
  | ScrollIntoView el _ => Some el
  end.

(** The elements callers pass to [focusSafely] in a sequence of actions. *)
Definition requested (actions : list Action) : list Element :=
  omap (fun a => match a with CallFocusSafely el => Some el | _ => None end)
       actions.

(** Every element the watcher observes and every element a queued callback
    will act on satisfies [P]. *)
Definition confined (P : Element -> Prop) (w : World) : Prop :=
  (forall el, el ∈ observationTargets w -> P el) /\
  Forall (fun t => P (task_target t)) (transitionCallbacks w).

(** Every primitive call of a run is made on an element that satisfies [P]. *)
Definition touches_only (P : Element -> Prop) (r : Run unit) : Prop :=
  Forall (fun e => forall el, event_target e = Some el -> P el) (emitted r).

(** * useMenuItem.ts (src/unnamed/part_001)

    The hook computes, from its props, the menu's state and the menu's
    shared data, the ARIA attributes of a menu item and the handlers it hands
    to [usePress], [useHover] and [useKeyboard].  Those hooks,
    [useSelectableItem], [mergeProps], [useSlotId], [menuData] and
    [getItemCount] are not in the sources: what they return is an input of
    the model, and what the hook only passes through to them ([onPress],
    [onHoverChange], [onKeyDown], [onBlur], [ref]) is left out.  A handler is
    modelled by the calls it makes, in order. *)

Definition Result_bind {A B} (r : Result A) (k : A -> Result B) : Result B :=
  match r with
  | Ok a => k a
  | Throw e => Throw e
  end.

Module MenuItem.

Definition Key := string.

Inductive SelectionMode := SelectNone | SelectSingle | SelectMultiple.
Inductive HasPopup := PopupMenu | PopupDialog.
Inductive PointerType :=
  PointerMouse | PointerPen | PointerTouch | PointerKeyboard | PointerVirtual.
(** [boolean | 'true' | 'false'] *)
Inductive AriaExpanded := ExpandedBool (b : bool) | ExpandedString (b : bool).
Inductive Role := menuitem | menuitemradio | menuitemcheckbox.

#[global] Instance SelectionMode_eq_dec : EqDecision SelectionMode.
Proof. solve_decision. Defined.
#[global] Instance PointerType_eq_dec : EqDecision PointerType.
Proof. solve_decision. Defined.
#[global] Instance Role_eq_dec : EqDecision Role.
Proof. solve_decision. Defined.

Record PressEvent := { pointerType : PointerType }.
Record KeyboardEvent := { event_key : string; event_repeat : bool }.

(** Where a callback comes from: the item's props or the menu's data. *)
Inductive Origin := FromProps | FromMenu.

(** The value of [onAction]: [() => {}] or a callback of the caller. *)
Inductive ActionHandler := Noop | Given (o : Origin).

(** The calls a handler makes. *)
Inductive Call :=
| OnAction (o : Origin) (k : option Key)
| OnClose (o : Origin)
| PressStartProp (e : PressEvent)
| ContinuePropagation
| SetFocused (b : bool)
| SetFocusedKey (k : option Key).

#[global] Instance Origin_eq_dec : EqDecision Origin.
Proof. solve_decision. Defined.

(** [AriaMenuItemProps]; a callback prop is [true] when it is passed. *)
Record AriaMenuItemProps := {
  props_isDisabled : option bool;
  props_isSelected : option bool;
  props_aria_label : option string;
  props_key : option Key;
  props_onClose : bool;
  props_closeOnSelect : option bool;
  props_isVirtualized : option bool;
  props_onAction : bool;
  props_aria_haspopup : option HasPopup;
  props_onPressStart : bool;
  props_aria_expanded : option AriaExpanded;
  props_aria_controls : option string
}.

Record ItemNode := { index : Z }.

(** What the hook reads of [TreeState]; [collection_itemCount] is
    [getItemCount(state.collection)]. *)
Record TreeState := {
  disabledKeys_has : option Key -> bool;
  expandedKeys_has : option Key -> bool;
  selectionMode : SelectionMode;
  selectionManager_isSelected : option Key -> bool;
  collection_getItem : option Key -> option ItemNode;
  collection_itemCount : Z
}.

(** The entry of [menuData] for the state; a callback is [true] when it is
    defined. *)
Record MenuData := { data_onClose : bool; data_onAction : bool }.

Record AriaProps := {
  aria_disabled : option bool;
  role : Role;
  aria_label : option string;
  aria_labelledby : option string;
  aria_describedby : option string;
  aria_controls : option string;
  aria_haspopup : option HasPopup;
  aria_expanded : option AriaExpanded;
  aria_checked : option bool;
  aria_posinset : option Z;
  aria_setsize : option Z
}.

(** What the hook computes itself: the fields of [MenuItemAria] that do not
    come from another hook, the ARIA part of [menuItemProps], and the
    handlers and flags given to [usePress], [useHover] and [useKeyboard].
    [onHoverStart] takes what [isFocusVisible()] returns. *)
Record MenuItemLocals := {
  ariaProps : AriaProps;
  labelProps_id : option string;
  descriptionProps_id : option string;
  keyboardShortcutProps_id : option string;
  isSelected : bool;
  isDisabled : bool;
  onPressStart : PressEvent -> list Call;
  onPressUp : PressEvent -> list Call;
  usePress_isDisabled : bool;
  useHover_isDisabled : bool;
  onHoverStart : bool -> list Call;
  onKeyDown : KeyboardEvent -> list Call
}.

(** [a ?? b] *)
Definition nullish {A} (a : option A) (b : A) : A :=
  match a with
  | Some x => x
  | None => b
  end.

(** [!!x] for a value that is an object or string literal when defined. *)
Definition defined {A} (a : option A) : bool :=
  match a with
  | Some _ => true
  | None => false
  end.

(** [Boolean(s)] for [s : string | undefined]. *)
Definition truthy_string (s : option string) : bool :=
  match s with
  | Some x => negb (String.eqb x EmptyString)
  | None => false
  end.

(** [Array.prototype.join] on strings. *)
Fixpoint join (sep : string) (l : list string) : string :=
  match l with
  | [] => EmptyString
  | x :: rest =>
      match rest with
      | [] => x
      | _ => x +:+ sep +:+ join sep rest
      end
  end.

(** [[descriptionId, keyboardId].filter(Boolean).join(' ') || undefined] *)
Definition describedby (descriptionId keyboardId : option string)
    : option string :=
  let kept :=
    omap (fun s => if truthy_string s then s else None)
         [descriptionId; keyboardId] in
  let joined := join " " kept in
  if String.eqb joined EmptyString then None else Some joined.

(** [props.f || data.f] for a callback [f]: the menu's data is read only
    when the prop is not passed, and reading it off [undefined] throws. *)
Definition prop_or_data (passed : bool) (data : option MenuData)
    (f : MenuData -> bool) : Result (option Origin) :=
  if passed then Ok (Some FromProps)
  else match data with
       | None => Throw TypeError
       | Some d => Ok (if f d then Some FromMenu else None)
       end.

(** [if (onAction) onAction(key)] *)
Definition call_onAction (onAction : option ActionHandler) (k : option Key)
    : list Call :=
  match onAction with
  | Some (Given o) => [OnAction o k]
  | Some Noop => []
  | None => []
  end.

Definition call_onClose (onClose : option Origin) : list Call :=
  match onClose with
  | Some o => [OnClose o]
  | None => []
  end.

(** lines 104-248 *)
Definition useMenuItem (props : AriaMenuItemProps) (state : TreeState)
    (data : option MenuData) (labelId descriptionId keyboardId : option string)
    : Result MenuItemLocals :=
  let key := props_key props in
  let closeOnSelect := props_closeOnSelect props in
  let isVirtualized := props_isVirtualized props in
  let hasPopup := props_aria_haspopup props in
  let pressStartProp := props_onPressStart props in
  (* lines 117-119 *)
  let isTrigger := defined hasPopup in
  let isDisabled := nullish (props_isDisabled props) (disabledKeys_has state key) in
  let isSelected :=
    nullish (props_isSelected props) (selectionManager_isSelected state key) in
  (* lines 120-122 *)
  Result_bind (prop_or_data (props_onClose props) data data_onClose)
  (fun onClose =>
  Result_bind
    (if isTrigger then Ok (Some Noop)
     else Result_map (option_map Given)
            (prop_or_data (props_onAction props) data data_onAction))
  (fun onAction =>
  (* lines 124-131 *)
  let role :=
    if negb isTrigger then
      if decide (selectionMode state = SelectSingle) then menuitemradio
      else if decide (selectionMode state = SelectMultiple) then menuitemcheckbox
      else menuitem
    else menuitem in
  (* lines 137-151 *)
  let checked :=
    if bool_decide (selectionMode state <> SelectNone) && negb isTrigger
    then Some isSelected else None in
  (* lines 153-156 *)
  Result_bind
    (if nullish isVirtualized false then
       match collection_getItem state key with
       | Some item => Ok (Some (index item), Some (collection_itemCount state))
       | None => Throw TypeError
       end
     else Ok (None, None))
  (fun position =>
  let ariaProps :=
    {| aria_disabled := if isDisabled then Some true else None;
       role := role;
       aria_label := props_aria_label props;
       aria_labelledby := labelId;
       aria_describedby := describedby descriptionId keyboardId;
       aria_controls := if isTrigger then props_aria_controls props else None;
       aria_haspopup := hasPopup;
       aria_expanded := if isTrigger then props_aria_expanded props else None;
       aria_checked := checked;
       aria_posinset := fst position;
       aria_setsize := snd position |} in
  Ok {|
    ariaProps := ariaProps;
    labelProps_id := labelId;
    descriptionProps_id := descriptionId;
    keyboardShortcutProps_id := keyboardId;
    isSelected := isSelected;
    isDisabled := isDisabled;
    (* lines 158-164 *)
    onPressStart := fun e =>
      (if bool_decide (pointerType e = PointerKeyboard)
       then call_onAction onAction key else [])
      ++ (if pressStartProp then [PressStartProp e] else []);
    (* lines 166-178 *)
    onPressUp := fun e =>
      if bool_decide (pointerType e <> PointerKeyboard) then
        call_onAction onAction key
        ++ (if negb isTrigger && defined onClose
               && nullish closeOnSelect
                    (bool_decide (selectionMode state <> SelectMultiple))
            then call_onClose onClose else [])
      else [];
    (* line 188 *)
    usePress_isDisabled := isDisabled || (isTrigger && expandedKeys_has state key);
    (* lines 189-198 *)
    useHover_isDisabled := isDisabled;
    onHoverStart := fun focusVisible =>
      if negb focusVisible then [SetFocused true; SetFocusedKey key] else [];
    (* lines 201-227 *)
    onKeyDown := fun e =>
      if event_repeat e then [ContinuePropagation]
      else if String.eqb (event_key e) " " then
        if negb isDisabled
           && bool_decide (selectionMode state = SelectNone)
           && negb isTrigger
           && negb (bool_decide (closeOnSelect = Some false))
           && defined onClose
        then call_onClose onClose else []
      else if String.eqb (event_key e) "Enter" then
        if negb isDisabled
           && negb (bool_decide (closeOnSelect = Some false))
           && negb isTrigger
           && defined onClose
        then call_onClose onClose else []
      else [ContinuePropagation]
  |}))).

(** Reading the calls of a handler. *)
Definition is_action (c : Call) : bool :=
  match c with OnAction _ _ => true | _ => false end.

Definition is_close (c : Call) : bool :=
  match c with OnClose _ => true | _ => false end.

Definition is_propagation (c : Call) : bool :=
  match c with ContinuePropagation => true | _ => false end.

Definition closes (calls : list Call) : bool := existsb is_close calls.

(** A menu with three items, "cut" disabled and "copy" selected, and items
    to try the hook on. *)
Definition example_state (mode : SelectionMode) : TreeState :=
  {| disabledKeys_has := fun k => bool_decide (k = Some "cut");
     expandedKeys_has := fun _ => false;
     selectionMode := mode;
     selectionManager_isSelected := fun k => bool_decide (k = Some "copy");
     collection_getItem := fun k =>
       if bool_decide (k = Some "cut") then Some {| index := 0 |}
       else if bool_decide (k = Some "copy") then Some {| index := 1 |}
       else if bool_decide (k = Some "paste") then Some {| index := 2 |}
       else None;
     collection_itemCount := 3 |}.

Definition example_props (k : Key) (popup : option HasPopup)
    (closeOnSelect : option bool) (virtualized : option bool)
    : AriaMenuItemProps :=
  {| props_isDisabled := None;
     props_isSelected := None;
     props_aria_label := None;
     props_key := Some k;
     props_onClose := true;
     props_closeOnSelect := closeOnSelect;
     props_isVirtualized := virtualized;
     props_onAction := true;
     props_aria_haspopup := popup;
     props_onPressStart := false;
     props_aria_expanded := None;
     props_aria_controls := None |}.

Definition example_data : option MenuData :=
  Some {| data_onClose := true; data_onAction := true |}.

End MenuItem.

(** * The scaffolding script (src/unnamed/part_000)

    [main] asks up to five questions, reads the templates and components,
    copies files and, for a new library, installs dependencies.  [prompts],
    [readTemplates], [readComponents], [copyComponents], [copyPackageJson],
    [exec], [chalk] and [path.resolve] are not in the sources: a run of
    [main] is modelled by the calls it makes to them, in order, given what
    they return.  An answer is [None] when the object [prompts] resolves to
    does not have the field. *)

Module Cli.

Inductive Style := Plain | Green | Cyan | Underline.

(** A logged line: its parts with the [chalk] style of each. *)
Definition Message := list (Style * string).

Inductive PromptType := select | text | multiselect.

Record Choice := { title : string; value : string; selected : bool }.

Record Question := {
  type : PromptType;
  name : string;
  message : string;
  choices : list Choice;
  initial : option string
}.

Inductive Effect :=
| Prompts (q : Question)
| ReadTemplates
| ReadComponents (template : option string)
| CopyComponents (selectedComponents : list string) (template : option string)
                 (projectName : option string) (includedFeatures : list string)
| CopyPackageJson (template : option string) (projectName : option string)
                  (includedFeatures : list string)
| ConsoleLog (m : Message)
| Exec (command : string)
| ProcessExit (code : Z).

(** What the collaborators return. *)
Record Env := {
  readTemplates : list string;
  readComponents : option string -> list string;
  path_resolve : string
}.

Record Answers := {
  answer_action : option string;
  answer_template : option string;
  answer_projectName : option string;
  answer_selectedComponents : option (list string);
  answer_includedFeatures : option (list string)
}.

(** A run: the calls made so far and how it ended. *)
Definition Script (A : Type) : Type := list Effect * Result A.

Definition pure {A} (a : A) : Script A := ([], Ok a).

Definition call {A} (e : Effect) (result : A) : Script A := ([e], Ok result).

Definition fail {A} (e : JsError) : Script A := ([], Throw e).

Definition andThen {A B} (m : Script A) (k : A -> Script B) : Script B :=
  match m with
  | (made, Ok a) =>
      match k a with
      | (more, r) => (made ++ more, r)
      end
  | (made, Throw e) => (made, Throw e)
  end.

Declare Scope cli_scope.
Delimit Scope cli_scope with cli.
Notation "'let!' x ':=' m 'in' k" := (andThen m (fun x => k))
  (at level 10, x name, m at level 100, k at level 200) : cli_scope.
Local Open Scope cli_scope.

Definition nl : string := String (ascii_of_nat 10) EmptyString.

(** [`${x}`] for a string that may be [undefined]. *)
Definition show (x : option string) : string := default "undefined" x.

(** [xs.includes(x)], on a value that may be [undefined]. *)
Definition includes (xs : option (list string)) (x : string) : Script bool :=
  match xs with
  | Some l => pure (bool_decide (x ∈ l))
  | None => fail TypeError
  end.

Definition plain_choice (t : string) : Choice :=
  {| title := t; value := t; selected := false |}.

(** lines 62-66 *)
Definition features : list Choice :=
  [ {| title := "Tests (with Jest + React Testing Library)";
       value := "Tests"; selected := false |};
    {| title := "Stories (with Storybook)";
       value := "Stories"; selected := false |};
    {| title := "Docs (with Storybook Autodocs)";
       value := "Docs"; selected := false |} ].

Definition all_choice : Choice :=
  {| title := "All (Default)"; value := "All"; selected := true |}.

Definition create : string := "Create a new library".

(** lines 10-113 *)
Definition main (env : Env) (answers : Answers) : Script unit :=
  (* lines 11-25 *)
  let! action :=
    call (Prompts {| type := select; name := "action";
                     message := "What would you like to do?";
                     choices :=
                       [ {| title := "Create a new component library";
                            value := create; selected := false |};
                         {| title := "Add component(s) to an existing project";
                            value := "Add components"; selected := false |} ];
                     initial := None |})
         (answer_action answers) in
  (* lines 27-33 *)
  let! templates := call ReadTemplates (readTemplates env) in
  let! template :=
    call (Prompts {| type := select; name := "template";
                     message := "Select a template";
                     choices := map plain_choice templates;
                     initial := None |})
         (answer_template answers) in
  (* lines 35-46 *)
  let! projectName :=
    if bool_decide (action = Some create) then
      call (Prompts {| type := text; name := "projectName";
                       message := "What is your project named?";
                       choices := [];
                       initial := Some "my-component-library" |})
           (answer_projectName answers)
    else pure (Some ".") in
  (* lines 48-60 *)
  let! components := call (ReadComponents template) (readComponents env template) in
  let! selectedComponents :=
    call (Prompts {| type := multiselect; name := "selectedComponents";
                     message := "Select the components you want to include";
                     choices := all_choice :: map plain_choice components;
                     initial := None |})
         (answer_selectedComponents answers) in
  let! allComponents := includes selectedComponents "All" in
  let selectedComponents :=
    if allComponents then components else default [] selectedComponents in
  (* lines 67-78 *)
  let! includedFeatures :=
    call (Prompts {| type := multiselect; name := "includedFeatures";
                     message := "Select the features you want to include";
                     choices := all_choice :: features;
                     initial := None |})
         (answer_includedFeatures answers) in
  let! allFeatures := includes includedFeatures "All" in
  let includedFeatures :=
    if allFeatures then map value features else default [] includedFeatures in
  (* line 80 *)
  let! _ := call (CopyComponents selectedComponents template projectName
                                 includedFeatures) tt in
  (* lines 82-99 *)
  let! _ :=
    if bool_decide (action = Some create) then
      let! _ := call (CopyPackageJson template projectName includedFeatures) tt in
      let! _ := call (ConsoleLog
                        [(Plain, "Creating a new component library in "
                                 +:+ path_resolve env +:+ "/"
                                 +:+ show projectName +:+ ".")]) tt in
      let! _ := call (ConsoleLog
                        [(Plain, "Initializing project with template: "
                                 +:+ show template)]) tt in
      let! _ := call (ConsoleLog [(Plain, "Installing dependencies...")]) tt in
      let! _ := call (Exec ("cd " +:+ show projectName +:+ " && npm install")) tt in
      call (ConsoleLog
              [(Green, nl +:+ "Success! Created " +:+ show projectName
                       +:+ " at " +:+ path_resolve env +:+ "/"
                       +:+ show projectName)]) tt
    else
      call (ConsoleLog [(Green, nl +:+ "Components successfully added!")]) tt in
  (* lines 101-104 *)
  let! _ :=
    call (ConsoleLog
            [(Cyan, nl +:+ "You can access the React Aria Components docs here: ");
             (Underline,
              "https://react-spectrum.adobe.com/react-aria/react-aria-components.html")])
         tt in
  (* lines 106-110 *)
  let! stories := if bool_decide (action = Some create)
                  then pure (bool_decide ("Stories" ∈ includedFeatures))
                  else pure false in
  let! _ :=
    if stories then
      call (ConsoleLog
              [(Cyan, nl +:+ "You can start Storybook by running:" +:+ nl +:+ nl
                      +:+ "cd " +:+ show projectName +:+ nl
                      +:+ "npm run storybook")]) tt
    else pure tt in
  (* line 112 *)
  call (ProcessExit 0) tt.

(** Reading a run. *)
Definition is_copyComponents (e : Effect) : bool :=
  match e with CopyComponents _ _ _ _ => true | _ => false end.

Definition is_setup (e : Effect) : bool :=
  match e with CopyPackageJson _ _ _ | Exec _ => true | _ => false end.

Definition is_prompt (e : Effect) : bool :=
  match e with Prompts _ => true | _ => false end.

Definition writes_files (e : Effect) : bool :=
  match e with
  | CopyComponents _ _ _ _ | CopyPackageJson _ _ _ | Exec _ => true
  | _ => false
  end.

(** The questions a run asked, by their [name], in order. *)
Definition asked (made : list Effect) : list string :=
  flat_map (fun e => match e with Prompts q => [name q] | _ => [] end) made.

(** The line that tells how to start Storybook. *)
Definition storybook_hint (projectName : option string) : Effect :=
  ConsoleLog
    [(Cyan, nl +:+ "You can start Storybook by running:" +:+ nl +:+ nl
            +:+ "cd " +:+ show projectName +:+ nl +:+ "npm run storybook")].

(** What [selectedComponents] and [includedFeatures] are after lines 58-60
    and 76-78. *)
Definition expanded (picked everything : list string) : list string :=
  if bool_decide ("All" ∈ picked) then everything else picked.

Definition example_env : Env :=
  {| readTemplates := ["vanilla-css"; "tailwind"];
     readComponents := fun _ => ["Button"; "Menu"; "Select"];
     path_resolve := "/home/dev" |}.

Definition example_answers (action : string) (picked features : list string)
    : Answers :=
  {| answer_action := Some action;
     answer_template := Some "tailwind";
     answer_projectName := Some "my-lib";
     answer_selectedComponents := Some picked;
     answer_includedFeatures := Some features |}.

End Cli.

(** * Properties *)

Local Open Scope nat_scope.

(** ** The watcher as a constant of the module *)

Lemma intersectionObserver_supported host :
  hasIntersectionObserver host = true ->
  intersectionObserver host =
    Some {| io_root := None; io_rootMargin := no_margins; io_threshold := 1 |}.
Proof.
  intros Hs. unfold intersectionObserver, new_IntersectionObserver.
  rewrite Hs. reflexivity.
Qed.



(** ** Containment only reads the parent pointers *)

Lemma contains_parents w w' this other :
  parentNode w' = parentNode w -> contains w' this other = contains w this other.
Proof. unfold contains. now intros ->. Qed.

Lemma contains_self w n : contains w n n = true.
Proof. unfold contains. simpl. now rewrite decide_True. Qed.

(** An element is related to itself already by [contains], so the identity
    test of line 83 never decides the outcome. *)
Lemma related_self w el : related w el el = true.
Proof. unfold related. now rewrite contains_self. Qed.

Arguments callTask : simpl never.
Arguments focusSafely : simpl never.
Arguments contains : simpl never.

Ltac run_cbv :=
  cbv beta iota zeta delta
    [focusSafely callTask intersectionObserverCallback forEach
     bind orM andM notM when ret throw node_contains
     document_contains document_activeElement getInteractionModality
     focusWithoutScrolling runAfterTransition observe unobserve scrollIntoView
     outcome final emitted app].

(** ** Run equations *)

Section Equations.

Variable host : Host.

(** The virtual branch, lines 62-71. *)
Lemma focusSafely_virtual_run element w :
  currentModality w = Virtual ->
  focusSafely host element w =
    let task := FocusIfUnchanged (activeElement w) element in
    mkRun (Ok tt)
          (set_transitionCallbacks (transitionCallbacks w ++ [task]) w)
          [GetInteractionModality; RunAfterTransition task].
Proof.
  intros Hm. unfold focusSafely, bind. simpl. rewrite Hm. reflexivity.
Qed.

(** The deferred callback of the virtual branch, lines 64-70. *)
Lemma callTask_focus_run prev element w :
  callTask host (FocusIfUnchanged prev element) w =
    if bool_decide (activeElement w = prev) && contains w Document (Elem element)
    then
      match intersectionObserver host with
      | Some _ =>
          mkRun (Ok tt)
                (set_observationTargets
                   (observationTargets w ∪ {[element]})
                   (set_activeElement (Some element) w))
                [FocusWithoutScrolling element; Observe element]
      | None =>
          mkRun (Ok tt) (set_activeElement (Some element) w)
                [FocusWithoutScrolling element]
      end
    else mkRun (Ok tt) w [].
Proof.
  unfold callTask, bind, andM, bind. simpl.
  destruct (bool_decide (activeElement w = prev)); simpl; [|reflexivity].
  destruct (contains w Document (Elem element)) eqn:Hc; simpl; [|reflexivity].
  unfold focusWithoutScrolling. simpl. rewrite Hc.
  destruct (intersectionObserver host); reflexivity.
Qed.

(** The world after [focusWithoutScrolling element]: focus lands on an
    attached element, nothing else changes. *)
Lemma focusWithoutScrolling_run element w :
  focusWithoutScrolling element w =
    mkRun (Ok tt)
          (if contains w Document (Elem element)
           then set_activeElement (Some element) w else w)
          [FocusWithoutScrolling element].
Proof. reflexivity. Qed.

(** The immediate branch, lines 72-89. *)
Lemma focusSafely_direct_run element w :
  currentModality w <> Virtual ->
  focusSafely host element w =
    let w1 := final (focusWithoutScrolling element w) in
    let registered :=
      mkRun (Ok tt)
            (set_observationTargets (observationTargets w1 ∪ {[element]}) w1)
            [GetInteractionModality; FocusWithoutScrolling element;
             Observe element] in
    let skipped :=
      mkRun (Ok tt) w1 [GetInteractionModality; FocusWithoutScrolling element] in
    match intersectionObserver host with
    | None => skipped
    | Some _ =>
        if bool_decide (currentModality w ≠ Pointer) then registered
        else match activeElement w with
             | None =>
                 mkRun (Throw TypeError) w1
                       [GetInteractionModality; FocusWithoutScrolling element]
             | Some previous =>
                 if related w previous element then skipped else registered
             end
    end.
Proof.
  intros Hm. run_cbv.
  destruct (decide (currentModality w = Virtual)) as [|_]; [contradiction|].
  run_cbv.
  set (w1 := if contains w Document (Elem element)
             then set_activeElement (Some element) w else w).
  assert (Hc : forall a b, contains w1 a b = contains w a b).
  { intros a b. apply contains_parents. subst w1.
    destruct (contains w Document (Elem element)); reflexivity. }
  destruct (intersectionObserver host) as [observer|]; [|reflexivity].
  run_cbv.
  destruct (bool_decide (currentModality w ≠ Pointer)); run_cbv; [reflexivity|].
  destruct (activeElement w) as [previous|]; run_cbv; [|reflexivity].
  unfold related. rewrite !Hc.
  destruct (contains w (Elem previous) (Elem element)); run_cbv; [reflexivity|].
  rewrite !Hc.
  destruct (contains w (Elem element) (Elem previous)); run_cbv; [reflexivity|].
  destruct (decide (element = previous)) as [->|Hne].
  - rewrite !bool_decide_eq_true_2 by reflexivity. reflexivity.
  - rewrite !bool_decide_eq_false_2 by congruence. reflexivity.
Qed.

End Equations.

(** ** The virtual branch *)

(** C1. In virtual modality [focusSafely] does not focus during the call: it
    hands exactly one callback to [runAfterTransition] and leaves the focused
    element and the watcher's targets as they were.  When the callback runs,
    in whatever world [w'] the page is by then, it calls
    [focusWithoutScrolling] on the target and registers the target with the
    watcher (where the watcher exists) exactly when
    [document.activeElement] is still the element captured at call time and
    the document still contains the target; otherwise it calls nothing and
    changes nothing. *)
Theorem focusSafely_virtual_defers host element w :
  currentModality w = Virtual ->
  let r := focusSafely host element w in
  let task := FocusIfUnchanged (activeElement w) element in
  outcome r = Ok tt /\
  emitted r = [GetInteractionModality; RunAfterTransition task] /\
  activeElement (final r) = activeElement w /\
  observationTargets (final r) = observationTargets w /\
  transitionCallbacks (final r) = transitionCallbacks w ++ [task] /\
  forall w',
    let r' := callTask host task w' in
    outcome r' = Ok tt /\
    if bool_decide (activeElement w' = activeElement w)
       && contains w' Document (Elem element)
    then
      emitted r' =
        FocusWithoutScrolling element ::
        match intersectionObserver host with
        | Some _ => [Observe element]
        | None => []
        end /\
      activeElement (final r') = Some element /\
      observationTargets (final r') =
        match intersectionObserver host with
        | Some _ => observationTargets w' ∪ {[element]}
        | None => observationTargets w'
        end
    else emitted r' = [] /\ final r' = w'.
Proof.
  intros Hm. cbv zeta. rewrite (focusSafely_virtual_run host element w Hm).
  cbv zeta. do 5 (split; [reflexivity|]).
  intros w'. rewrite callTask_focus_run.
  destruct (bool_decide _ && contains _ _ _); [|repeat split; reflexivity].
  destruct (intersectionObserver host); repeat split; reflexivity.
Qed.

Lemma focusSafely_virtual_defers_witness :
  currentModality (example_world Virtual (Some 3%positive)) = Virtual /\
  emitted (focusSafely supporting_host 5%positive
             (example_world Virtual (Some 3%positive))) =
    [GetInteractionModality;
     RunAfterTransition (FocusIfUnchanged (Some 3%positive) 5%positive)].
Proof.
  split; [reflexivity|].
  exact (proj1 (proj2 (focusSafely_virtual_defers supporting_host 5%positive
                         (example_world Virtual (Some 3%positive)) eq_refl))).
Defined.

(** ** The immediate branch *)

(** C2. In every modality other than virtual the call itself invokes
    [focusWithoutScrolling] on the target: it is the first primitive called
    after the modality is read, it is called exactly once, the call makes no
    [scrollIntoView] and leaves no callback behind that could. *)
Theorem focusSafely_direct_focus host element w :
  currentModality w <> Virtual ->
  let r := focusSafely host element w in
  (exists rest,
     emitted r =
       GetInteractionModality :: FocusWithoutScrolling element :: rest /\
     (rest = [] \/ rest = [Observe element])) /\
  List.filter is_focus (emitted r) = [FocusWithoutScrolling element] /\
  List.filter is_scroll (emitted r) = [] /\
  scheduled (emitted r) = [] /\
  transitionCallbacks (final r) = transitionCallbacks w /\
  activeElement (final r) =
    if contains w Document (Elem element) then Some element
    else activeElement w.
Proof.
  intros Hm. cbv zeta. rewrite (focusSafely_direct_run host element w Hm).
  cbv zeta. rewrite focusWithoutScrolling_run.
  assert (Hq : transitionCallbacks
                 (if contains w Document (Elem element)
                  then set_activeElement (Some element) w else w)
               = transitionCallbacks w)
    by (destruct (contains w Document (Elem element)); reflexivity).
  assert (Ha : activeElement
                 (if contains w Document (Elem element)
                  then set_activeElement (Some element) w else w)
               = if contains w Document (Elem element) then Some element
                 else activeElement w)
    by (destruct (contains w Document (Elem element)); reflexivity).
  destruct (intersectionObserver host) as [observer|];
    [destruct (bool_decide (currentModality w ≠ Pointer));
       [|destruct (activeElement w) as [previous|] eqn:Hprev;
           [destruct (related w previous element)|]]|];
    simpl; rewrite ?Hprev;
    (split; [eexists; split; [reflexivity|auto]|]); auto.
Qed.

Lemma focusSafely_direct_focus_witness :
  currentModality (example_world Keyboard (Some 3%positive)) <> Virtual /\
  List.filter is_focus
    (emitted (focusSafely supporting_host 5%positive
                (example_world Keyboard (Some 3%positive)))) =
    [FocusWithoutScrolling 5%positive].
Proof.
  split; [discriminate|].
  exact (proj1 (proj2 (focusSafely_direct_focus supporting_host 5%positive
                         (example_world Keyboard (Some 3%positive))
                         ltac:(discriminate)))).
Defined.

(** The immediate branch with a watcher, pointer modality and no focused
    element: [lastFocusedElement.contains(element)] (line 81) reads a
    property of [null]. *)
Lemma focusSafely_pointer_null_run host observer element w :
  intersectionObserver host = Some observer ->
  currentModality w = Pointer ->
  activeElement w = None ->
  focusSafely host element w =
    mkRun (Throw TypeError) (final (focusWithoutScrolling element w))
          [GetInteractionModality; FocusWithoutScrolling element].
Proof.
  intros Ho Hm Ha.
  rewrite focusSafely_direct_run by (rewrite Hm; discriminate).
  cbv zeta. rewrite Ho, Hm, Ha.
  rewrite bool_decide_eq_false_2 by (intros Hne; now apply Hne).
  reflexivity.
Qed.

(** C3. The registration rule fails on one input of the immediate branch.
    With the watcher present, pointer modality and no focused element
    ([document.activeElement] is [null]) there is no previously focused
    element for the target to be related to, so the rule asks for a
    registration; the call throws at line 81 instead, before line 87, and
    the target is not registered. *)
Theorem focusSafely_pointer_null_registers_nothing :
  let w := example_world Pointer None in
  let r := focusSafely supporting_host 5%positive w in
  is_Some (intersectionObserver supporting_host) /\
  currentModality w = Pointer /\
  activeElement w = None /\
  outcome r = Throw TypeError /\
  List.filter is_observe (emitted r) = [] /\
  observationTargets (final r) = ∅.
Proof.
  cbv zeta.
  rewrite (focusSafely_pointer_null_run supporting_host _ 5%positive
             (example_world Pointer None)
             (intersectionObserver_supported supporting_host eq_refl)
             eq_refl eq_refl).
  repeat split; try reflexivity. eexists; reflexivity.
Qed.

(** C7. [focusSafely] throws on an input it can receive: pointer modality,
    a watcher, and no focused element.  The TypeError of line 81 reaches the
    caller; focus has been moved by then. *)
Theorem focusSafely_throws_without_active_element :
  let w := example_world Pointer None in
  let r := focusSafely supporting_host 4%positive w in
  outcome r = Throw TypeError /\
  emitted r = [GetInteractionModality; FocusWithoutScrolling 4%positive] /\
  activeElement (final r) = Some 4%positive.
Proof.
  cbv zeta.
  rewrite (focusSafely_pointer_null_run supporting_host _ 4%positive
             (example_world Pointer None)
             (intersectionObserver_supported supporting_host eq_refl)
             eq_refl eq_refl).
  repeat split; reflexivity.
Qed.

(** The outcome of every call: the TypeError above is the only error, and it
    needs a watcher, pointer modality and no focused element. *)
Theorem focusSafely_outcome host element w :
  outcome (focusSafely host element w) =
    match intersectionObserver host, currentModality w, activeElement w with
    | Some _, Pointer, None => Throw TypeError
    | _, _, _ => Ok tt
    end.
Proof.
  destruct (decide (currentModality w = Virtual)) as [Hm|Hm].
  - rewrite focusSafely_virtual_run by exact Hm. rewrite Hm.
    destruct (intersectionObserver host); reflexivity.
  - rewrite focusSafely_direct_run by exact Hm. cbv zeta.
    destruct (intersectionObserver host) as [observer|]; [|reflexivity].
    destruct (currentModality w) eqn:Hcm; try reflexivity.
    rewrite bool_decide_eq_false_2 by (intros Hne; now apply Hne).
    destruct (activeElement w) as [previous|]; [|reflexivity].
    destruct (related w previous element); reflexivity.
Qed.

(** The registration rule of the immediate branch, away from the input
    where the call throws: the target is registered exactly when the watcher
    exists and it is not the case that the modality is pointer and the
    previously focused element and the target are related. *)
Theorem focusSafely_direct_registers_iff host element w :
  currentModality w <> Virtual ->
  (currentModality w = Pointer -> activeElement w <> None) ->
  let r := focusSafely host element w in
  let kin :=
    match activeElement w with
    | Some previous => related w previous element
    | None => false
    end in
  let registers :=
    match intersectionObserver host with
    | Some _ => negb (bool_decide (currentModality w = Pointer) && kin)
    | None => false
    end in
  outcome r = Ok tt /\
  emitted r =
    [GetInteractionModality; FocusWithoutScrolling element]
    ++ (if registers then [Observe element] else []) /\
  observationTargets (final r) =
    if registers then observationTargets w ∪ {[element]}
    else observationTargets w.
Proof.
  intros Hm Hnull. cbv zeta.
  rewrite focusSafely_direct_run by exact Hm. cbv zeta.
  rewrite focusWithoutScrolling_run.
  destruct (intersectionObserver host) as [observer|];
    [|destruct (contains w Document (Elem element)); repeat split].
  destruct (decide (currentModality w = Pointer)) as [Hp|Hp].
  - rewrite bool_decide_eq_false_2 by (intros Hne; now apply Hne).
    rewrite (bool_decide_eq_true_2 _ Hp).
    destruct (activeElement w) as [previous|]; [|now destruct (Hnull Hp)].
    destruct (related w previous element);
      destruct (contains w Document (Elem element)); repeat split.
  - rewrite (bool_decide_eq_true_2 _ Hp), (bool_decide_eq_false_2 _ Hp).
    destruct (contains w Document (Elem element)); repeat split.
Qed.

Lemma focusSafely_direct_registers_iff_witness :
  currentModality (example_world Pointer (Some 3%positive)) <> Virtual /\
  (currentModality (example_world Pointer (Some 3%positive)) = Pointer ->
   activeElement (example_world Pointer (Some 3%positive)) <> None) /\
  outcome (focusSafely supporting_host 4%positive
             (example_world Pointer (Some 3%positive))) = Ok tt.
Proof.
  split; [discriminate|]. split; [discriminate|].
  exact (proj1 (focusSafely_direct_registers_iff supporting_host
                  4%positive (example_world Pointer (Some 3%positive))
                  ltac:(discriminate) ltac:(discriminate))).
Defined.

(** ** One focus move per invocation *)

Lemma focusSafely_direct_trace host element w :
  currentModality w <> Virtual ->
  emitted (focusSafely host element w) =
    [GetInteractionModality; FocusWithoutScrolling element] \/
  emitted (focusSafely host element w) =
    [GetInteractionModality; FocusWithoutScrolling element; Observe element].
Proof.
  intros Hm. rewrite focusSafely_direct_run by exact Hm. cbv zeta.
  destruct (intersectionObserver host) as [observer|]; [|now left].
  destruct (bool_decide (currentModality w ≠ Pointer)); [now right|].
  destruct (activeElement w) as [previous|]; [|now left].
  destruct (related w previous element); [now left | now right].
Qed.

Lemma callTask_focus_count host previous element w :
  count_focus (emitted (callTask host (FocusIfUnchanged previous element) w)) <= 1
  /\ scheduled (emitted (callTask host (FocusIfUnchanged previous element) w)) = [].
Proof.
  rewrite callTask_focus_run. unfold count_focus.
  destruct (bool_decide _ && contains _ _ _); [|split; [simpl; lia|reflexivity]].
  destruct (intersectionObserver host); split; simpl; auto.
Qed.

(** The scheduler runs the callback it is asked to run and drops it. *)
Lemma step_TransitionsOver host i t w :
  transitionCallbacks w !! i = Some t ->
  step host (TransitionsOver i) w =
    Some (callTask host t
            (set_transitionCallbacks (delete i (transitionCallbacks w)) w)).
Proof. intros Hi. simpl. now rewrite Hi. Qed.

(** C4. One invocation calls [focusWithoutScrolling] at most once, counting
    the call itself and the callbacks it hands to [runAfterTransition], each
    run in an arbitrary later world [later t].  In virtual modality the call
    focuses nothing and leaves one callback; in any other modality it focuses
    once and leaves none.  The callback schedules nothing further, and the
    scheduler drops it from its queue when it runs it, so it does not run
    again. *)
Theorem focusSafely_focuses_at_most_once host element w (later : Task -> World) :
  let r := focusSafely host element w in
  let deferred := scheduled (emitted r) in
  let now := count_focus (emitted r) in
  let afterwards :=
    sum_list
      (map (fun t => count_focus (emitted (callTask host t (later t)))) deferred)
  in
  now + afterwards <= 1 /\
  (currentModality w = Virtual -> now = 0 /\ length deferred = 1) /\
  (currentModality w <> Virtual -> now = 1 /\ deferred = []) /\
  Forall (fun t =>
            scheduled (emitted (callTask host t (later t))) = [] /\
            forall q i,
              transitionCallbacks q !! i = Some t ->
              exists r',
                step host (TransitionsOver i) q = Some r' /\
                count_focus (emitted r') <= 1 /\
                transitionCallbacks (final r') = delete i (transitionCallbacks q))
         deferred.
Proof.
  cbv zeta. destruct (decide (currentModality w = Virtual)) as [Hm|Hm].
  - rewrite focusSafely_virtual_run by exact Hm. cbv zeta. cbn.
    pose proof (callTask_focus_count host (activeElement w) element
                  (later (FocusIfUnchanged (activeElement w) element)))
      as [Hc Hs].
    split; [unfold count_focus in *; cbn; lia|].
    split; [intros _; split; reflexivity|].
    split; [intros Hne; contradiction|].
    constructor; [|constructor]. split; [exact Hs|].
    intros q i Hi. eexists. split; [apply step_TransitionsOver, Hi|].
    split; [apply callTask_focus_count|].
    rewrite callTask_focus_run.
    destruct (bool_decide _ && contains _ _ _); [|reflexivity].
    destruct (intersectionObserver host); reflexivity.
  - destruct (focusSafely_direct_trace host element w Hm) as [-> | ->];
      simpl; (split; [unfold count_focus; simpl; lia|]);
      (split; [intros Hv; contradiction|]);
      (split; [intros _; split; reflexivity|]); constructor.
Qed.

(** C9. On the virtual branch the callback registers the target whenever
    its guard passes and the watcher exists: whatever the modality is by
    then, and whether or not the target is the previously focused element,
    its ancestor or its descendant.  The containment test of the immediate
    branch is not part of the callback. *)
Theorem virtual_callback_registers_unconditionally host observer element w w' :
  intersectionObserver host = Some observer ->
  currentModality w = Virtual ->
  activeElement w' = activeElement w ->
  contains w' Document (Elem element) = true ->
  scheduled (emitted (focusSafely host element w)) =
    [FocusIfUnchanged (activeElement w) element] /\
  let r' := callTask host (FocusIfUnchanged (activeElement w) element) w' in
  outcome r' = Ok tt /\
  emitted r' = [FocusWithoutScrolling element; Observe element] /\
  observationTargets (final r') = observationTargets w' ∪ {[element]}.
Proof.
  intros Ho Hm Ha Hc.
  rewrite focusSafely_virtual_run by exact Hm. cbv zeta.
  split; [reflexivity|].
  rewrite callTask_focus_run, Ho, Hc, Ha.
  rewrite bool_decide_eq_true_2 by reflexivity.
  repeat split.
Qed.

(** The target is the label inside the focused button, and the modality
    has turned to pointer by the time the callback runs. *)
Lemma virtual_callback_registers_unconditionally_witness :
  intersectionObserver supporting_host =
    Some {| io_root := None; io_rootMargin := no_margins; io_threshold := 1 |} /\
  currentModality (example_world Virtual (Some 3%positive)) = Virtual /\
  activeElement (example_world Pointer (Some 3%positive)) =
    activeElement (example_world Virtual (Some 3%positive)) /\
  contains (example_world Pointer (Some 3%positive)) Document
    (Elem 4%positive) = true /\
  related (example_world Pointer (Some 3%positive)) 3%positive 4%positive
    = true /\
  emitted (callTask supporting_host
             (FocusIfUnchanged (Some 3%positive) 4%positive)
             (example_world Pointer (Some 3%positive))) =
    [FocusWithoutScrolling 4%positive; Observe 4%positive].
Proof.
  do 5 (split; [vm_compute; reflexivity|]).
  exact (proj1 (proj2 (proj2
           (virtual_callback_registers_unconditionally supporting_host _
              4%positive
              (example_world Virtual (Some 3%positive))
              (example_world Pointer (Some 3%positive))
              (intersectionObserver_supported supporting_host eq_refl)
              eq_refl eq_refl eq_refl)))).
Defined.

(** ** The watcher's callback *)

Lemma intersectionObserverCallback_nil observer w :
  intersectionObserverCallback [] observer w = mkRun (Ok tt) w [].
Proof. reflexivity. Qed.

Lemma intersectionObserverCallback_cons observer entry rest w :
  intersectionObserverCallback (entry :: rest) observer w =
    let r := intersectionObserverCallback rest observer (entry_world entry w) in
    mkRun (outcome r) (final r) (entry_events entry ++ emitted r).
Proof.
  unfold intersectionObserverCallback, entry_events, entry_world, correction.
  destruct entry as [target [|]]; reflexivity.
Qed.

Lemma intersectionObserverCallback_run observer entries : forall w,
  let r := intersectionObserverCallback entries observer w in
  outcome r = Ok tt /\
  emitted r = flat_map entry_events entries /\
  transitionCallbacks (final r) = transitionCallbacks w ++ corrections entries /\
  observationTargets (final r) =
    observationTargets w ∖ list_to_set (map entry_target entries) /\
  currentModality (final r) = currentModality w /\
  activeElement (final r) = activeElement w /\
  parentNode (final r) = parentNode w /\
  layout (final r) = layout w /\
  viewport (final r) = viewport w.
Proof.
  induction entries as [|entry rest IH]; intros w; cbv zeta.
  - rewrite intersectionObserverCallback_nil. simpl.
    rewrite app_nil_r, difference_empty_L. repeat split.
  - rewrite intersectionObserverCallback_cons. cbv zeta.
    destruct (IH (entry_world entry w))
      as (Ho & He & Hq & Ht & Hm & Ha & Hp & Hl & Hv).
    cbn [outcome final emitted].
    rewrite Ho, He, Hq, Ht, Hm, Ha, Hp, Hl, Hv.
    unfold corrections, entry_world, correction. cbn [flat_map map].
    rewrite list_to_set_cons, <- difference_difference_l_L.
    destruct (isIntersecting entry); simpl;
      repeat split; rewrite <- ?app_assoc; reflexivity.
Qed.

Lemma scheduled_app l1 l2 : scheduled (l1 ++ l2) = scheduled l1 ++ scheduled l2.
Proof. unfold scheduled. apply omap_app. Qed.

Lemma scheduled_entry_events entries :
  scheduled (flat_map entry_events entries) = corrections entries.
Proof.
  induction entries as [|entry rest IH]; [reflexivity|].
  cbn [flat_map]. rewrite scheduled_app, IH. unfold corrections.
  cbn [flat_map]. f_equal.
  unfold entry_events, correction. now destruct (isIntersecting entry).
Qed.

Lemma no_scroll_in_entry_events entries :
  List.filter is_scroll (flat_map entry_events entries) = [].
Proof.
  induction entries as [|entry rest IH]; [reflexivity|].
  cbn [flat_map]. rewrite List.filter_app, IH, app_nil_r.
  unfold entry_events, correction. now destruct (isIntersecting entry).
Qed.

Lemma step_IntersectionReport_unobserved host targets target w :
  In target targets ->
  target ∉ observationTargets w ->
  step host (IntersectionReport targets) w = None.
Proof.
  intros Hin Hout. unfold step.
  destruct (intersectionObserver host) as [observer|]; [|reflexivity].
  rewrite bool_decide_eq_false_2; [reflexivity|].
  intros [_ Hall]. apply Hout.
  rewrite Forall_forall in Hall. apply Hall. now apply list_elem_of_In.
Qed.

(** C5. Handling a report, the watcher's callback treats every entry alike:
    for an entry that is not intersecting it hands one callback to
    [runAfterTransition] that will call [scrollIntoView] on the entry's
    target with [block] and [inline] set to nearest, and scrolls nothing
    itself; for an intersecting entry it schedules nothing; in both cases it
    unobserves the target.  The observer reports only on its targets, so no
    further report on that element can happen until it is observed again,
    and after a new [observe] a report can. *)
Theorem intersectionObserverCallback_reports observer entries w :
  let r := intersectionObserverCallback entries observer w in
  outcome r = Ok tt /\
  emitted r = flat_map entry_events entries /\
  scheduled (emitted r) =
    map (fun e => ScrollEntryIntoView (entry_target e) scrollIntoViewOptions)
        (List.filter (fun e => negb (isIntersecting e)) entries) /\
  transitionCallbacks (final r) =
    transitionCallbacks w ++ scheduled (emitted r) /\
  List.filter is_scroll (emitted r) = [] /\
  block scrollIntoViewOptions = PosNearest /\
  inline scrollIntoViewOptions = PosNearest /\
  (forall host target options w',
     callTask host (ScrollEntryIntoView target options) w' =
       mkRun (Ok tt) w' [ScrollIntoView target options]) /\
  (forall e, In e entries ->
     In (Unobserve (entry_target e)) (emitted r) /\
     entry_target e ∉ observationTargets (final r)) /\
  (forall host e targets,
     In e entries -> In (entry_target e) targets ->
     step host (IntersectionReport targets) (final r) = None) /\
  (forall host e,
     intersectionObserver host = Some observer -> In e entries ->
     is_Some (step host (IntersectionReport [entry_target e])
                (final (observe observer (entry_target e) (final r))))).
Proof.
  cbv zeta.
  destruct (intersectionObserverCallback_run observer entries w)
    as (Ho & He & Hq & Ht & _).
  assert (Hgone : forall e, In e entries ->
            entry_target e ∉
              observationTargets
                (final (intersectionObserverCallback entries observer w))).
  { intros e Hin. rewrite Ht. apply not_elem_of_difference. right.
    apply elem_of_list_to_set, list_elem_of_In, in_map, Hin. }
  rewrite He, Hq, scheduled_entry_events, no_scroll_in_entry_events.
  repeat split; auto.
  - unfold corrections. clear. induction entries as [|e rest IH]; [reflexivity|].
    cbn [flat_map List.filter map]. rewrite IH. unfold correction.
    now destruct (isIntersecting e).
  - apply in_flat_map. exists e. split; [assumption|].
    unfold entry_events. apply in_or_app. right. now left.
  - intros host e targets Hin Ht'.
    apply (step_IntersectionReport_unobserved host targets (entry_target e));
      auto.
  - intros host e Hobs Hin. unfold step. rewrite Hobs.
    rewrite bool_decide_eq_true_2; [eexists; reflexivity|].
    split; [apply NoDup_singleton|].
    constructor; [|constructor]. simpl.
    apply elem_of_union. right. now apply elem_of_singleton.
Qed.

(** ** The watcher cannot be constructed *)

(** What a call does to the focus does not depend on the watcher. *)
Lemma focusSafely_focus_effect host element w :
  let r := focusSafely host element w in
  List.filter is_focus (emitted r) =
    (if decide (currentModality w = Virtual) then []
     else [FocusWithoutScrolling element]) /\
  activeElement (final r) =
    (if decide (currentModality w = Virtual) then activeElement w
     else activeElement (final (focusWithoutScrolling element w))).
Proof.
  cbv zeta. destruct (decide (currentModality w = Virtual)) as [Hm|Hm].
  - rewrite focusSafely_virtual_run by exact Hm. split; reflexivity.
  - rewrite focusSafely_direct_run by exact Hm. cbv zeta.
    destruct (intersectionObserver host) as [observer|]; [|split; reflexivity].
    destruct (bool_decide (currentModality w ≠ Pointer)); [split; reflexivity|].
    destruct (activeElement w) as [previous|]; [|split; reflexivity].
    destruct (related w previous element); split; reflexivity.
Qed.

Lemma callTask_focus_effect host previous element w :
  let r := callTask host (FocusIfUnchanged previous element) w in
  let go := bool_decide (activeElement w = previous)
            && contains w Document (Elem element) in
  outcome r = Ok tt /\
  List.filter is_focus (emitted r) =
    (if go then [FocusWithoutScrolling element] else []) /\
  activeElement (final r) = (if go then Some element else activeElement w).
Proof.
  cbv zeta. rewrite callTask_focus_run.
  destruct (bool_decide _ && contains _ _ _); [|repeat split].
  destruct (intersectionObserver host); repeat split.
Qed.

Section Degraded.

Variable host : Host.
Hypothesis absent : intersectionObserver host = None.

Lemma degraded_focusSafely element w :
  let r := focusSafely host element w in
  quiet r /\
  observationTargets (final r) = observationTargets w /\
  (Forall (fun t => is_correction t = false) (transitionCallbacks w) ->
   Forall (fun t => is_correction t = false) (transitionCallbacks (final r))).
Proof.
  cbv zeta. unfold quiet.
  destruct (decide (currentModality w = Virtual)) as [Hm|Hm].
  - rewrite focusSafely_virtual_run by exact Hm. cbv zeta. simpl.
    repeat split. intros Hq. apply Forall_app. split; [exact Hq|].
    now constructor.
  - rewrite focusSafely_direct_run by exact Hm. cbv zeta. rewrite absent.
    rewrite focusWithoutScrolling_run.
    destruct (contains w Document (Elem element)); repeat split; auto.
Qed.

Lemma degraded_callTask t w :
  is_correction t = false ->
  let r := callTask host t w in
  quiet r /\
  observationTargets (final r) = observationTargets w /\
  transitionCallbacks (final r) = transitionCallbacks w.
Proof.
  intros Ht. destruct t as [previous element|target options];
    [|discriminate]. cbv zeta. unfold quiet.
  rewrite callTask_focus_run, absent.
  destruct (bool_decide _ && contains _ _ _); repeat split.
Qed.

Lemma degraded_play actions : forall w,
  Forall (fun t => is_correction t = false) (transitionCallbacks w) ->
  Forall quiet (play host actions w).
Proof.
  induction actions as [|a rest IH]; intros w Hq; [constructor|].
  destruct a as [element|i|targets|m active parents boxes view].
  - cbn [play step].
    destruct (degraded_focusSafely element w) as (Hquiet & _ & Hkeep).
    constructor; [exact Hquiet|]. apply IH, Hkeep, Hq.
  - cbn [play step].
    destruct (transitionCallbacks w !! i) as [t|] eqn:Hi; [|now apply IH].
    assert (Ht : is_correction t = false).
    { rewrite Forall_forall in Hq. apply Hq.
      eapply list_elem_of_lookup_2, Hi. }
    destruct (degraded_callTask t
                (set_transitionCallbacks (delete i (transitionCallbacks w)) w)
                Ht) as (Hquiet & _ & Hkeep).
    constructor; [exact Hquiet|]. apply IH. rewrite Hkeep. simpl.
    apply Forall_delete, Hq.
  - cbn [play step]. rewrite absent. now apply IH.
  - cbn [play step]. constructor; [repeat split|]. now apply IH.
Qed.

End Degraded.

(** C6. Where [new IntersectionObserver] throws, the module catches the
    error and its constant [intersectionObserver] is [undefined]; the
    constant depends on the host only, so it stays so.  From then on every
    call of [focusSafely] returns without error and still moves focus: in a
    modality other than virtual its calls are the modality read and
    [focusWithoutScrolling] on the target, which leaves an attached target
    focused; in virtual modality they are the modality read and the
    scheduling of the callback, and the callback, run in any later world,
    calls [focusWithoutScrolling] on the target and nothing else when its
    guard passes and calls nothing otherwise.  These are the
    [focusWithoutScrolling] calls and the focused element of any other host
    [host'], and nothing is registered.  Along every sequence of calls,
    callbacks run by the scheduler, reports and changes made elsewhere,
    started from a world whose queue holds no scrolling callback, no run
    throws, registers or scrolls. *)
Theorem watcher_construction_failure host err :
  new_IntersectionObserver host intersectionObserverOptions = Throw err ->
  intersectionObserver host = None /\
  (forall element w host',
     let r := focusSafely host element w in
     let r' := focusSafely host' element w in
     outcome r = Ok tt /\
     List.filter is_observe (emitted r) = [] /\
     observationTargets (final r) = observationTargets w /\
     List.filter is_focus (emitted r) = List.filter is_focus (emitted r') /\
     activeElement (final r) = activeElement (final r') /\
     emitted r =
       (if decide (currentModality w = Virtual)
        then [GetInteractionModality;
              RunAfterTransition (FocusIfUnchanged (activeElement w) element)]
        else [GetInteractionModality; FocusWithoutScrolling element]) /\
     activeElement (final r) =
       (if decide (currentModality w = Virtual) then activeElement w
        else if contains w Document (Elem element) then Some element
             else activeElement w) /\
     transitionCallbacks (final r) =
       (if decide (currentModality w = Virtual)
        then transitionCallbacks w
             ++ [FocusIfUnchanged (activeElement w) element]
        else transitionCallbacks w)) /\
  (forall previous element w host',
     let r := callTask host (FocusIfUnchanged previous element) w in
     let r' := callTask host' (FocusIfUnchanged previous element) w in
     let go := bool_decide (activeElement w = previous)
               && contains w Document (Elem element) in
     outcome r = Ok tt /\
     List.filter is_observe (emitted r) = [] /\
     observationTargets (final r) = observationTargets w /\
     List.filter is_focus (emitted r) = List.filter is_focus (emitted r') /\
     activeElement (final r) = activeElement (final r') /\
     emitted r = (if go then [FocusWithoutScrolling element] else []) /\
     activeElement (final r) =
       (if go then Some element else activeElement w)) /\
  (forall actions w,
     Forall (fun t => is_correction t = false) (transitionCallbacks w) ->
     Forall quiet (play host actions w)).
Proof.
  intros Hthrow.
  assert (absent : intersectionObserver host = None)
    by (unfold intersectionObserver; now rewrite Hthrow).
  split; [exact absent|]. split; [|split].
  - intros element w host'. cbv zeta.
    destruct (degraded_focusSafely host absent element w)
      as ((Ho & Hobs & _) & Ht & _).
    destruct (focusSafely_focus_effect host' element w) as [Hf' Ha'].
    rewrite Hf', Ha'. clear Hf' Ha'.
    split; [exact Ho|]. split; [exact Hobs|]. split; [exact Ht|].
    destruct (decide (currentModality w = Virtual)) as [Hm|Hm].
    + rewrite focusSafely_virtual_run by exact Hm. cbv zeta.
      repeat split.
    + rewrite focusSafely_direct_run by exact Hm. cbv zeta.
      rewrite absent, focusWithoutScrolling_run.
      destruct (contains w Document (Elem element)); repeat split.
  - intros previous element w host'. cbv zeta.
    destruct (degraded_callTask host absent (FocusIfUnchanged previous element)
                w eq_refl) as ((Ho & Hobs & _) & Ht & _).
    destruct (callTask_focus_effect host' previous element w)
      as (_ & Hf' & Ha').
    rewrite Hf', Ha'. clear Hf' Ha'.
    split; [exact Ho|]. split; [exact Hobs|]. split; [exact Ht|].
    rewrite callTask_focus_run, absent.
    destruct (bool_decide (activeElement w = previous)
              && contains w Document (Elem element)); repeat split.
  - intros actions w. apply degraded_play, absent.
Qed.

Lemma watcher_construction_failure_witness :
  new_IntersectionObserver bare_host intersectionObserverOptions =
    Throw ReferenceError /\
  intersectionObserver bare_host = None.
Proof.
  split; [reflexivity|].
  exact (proj1 (watcher_construction_failure bare_host ReferenceError eq_refl)).
Defined.

(** ** What the module leaves alone *)

Lemma callTask_focus_frame host previous element w :
  let r := callTask host (FocusIfUnchanged previous element) w in
  currentModality (final r) = currentModality w /\
  parentNode (final r) = parentNode w /\
  layout (final r) = layout w /\
  viewport (final r) = viewport w /\
  List.filter is_modality_read (emitted r) = [] /\
  Forall (acts_on element) (emitted r) /\
  (activeElement (final r) = activeElement w \/
   activeElement (final r) = Some element) /\
  (observationTargets (final r) = observationTargets w \/
   observationTargets (final r) = observationTargets w ∪ {[element]}).
Proof.
  cbv zeta. rewrite callTask_focus_run.
  destruct (bool_decide _ && contains _ _ _);
    [destruct (intersectionObserver host)|];
    cbn [final emitted];
    (split_and!;
     [reflexivity | reflexivity | reflexivity | reflexivity | reflexivity
     | repeat constructor
     | first [left; reflexivity | right; reflexivity]
     | first [left; reflexivity | right; reflexivity]]).
Qed.

(** C8. [focusSafely] reads the modality once, as the first thing it does,
    and its deferred callback never reads it; neither writes it.  Neither
    changes the DOM tree or the layout, so the previously focused element
    stays where it was.  Every primitive that acts on an element is called
    on the target: the captured [lastFocusedElement] is stored in the
    callback, compared with [document.activeElement] and tested for
    containment, and is handed to no primitive.  Focus and the watcher's
    targets change by the target at most. *)
Theorem focusSafely_frame host element w :
  let r := focusSafely host element w in
  currentModality (final r) = currentModality w /\
  parentNode (final r) = parentNode w /\
  layout (final r) = layout w /\
  viewport (final r) = viewport w /\
  (exists rest,
     emitted r = GetInteractionModality :: rest /\
     List.filter is_modality_read rest = []) /\
  Forall (acts_on element) (emitted r) /\
  (activeElement (final r) = activeElement w \/
   activeElement (final r) = Some element) /\
  (observationTargets (final r) = observationTargets w \/
   observationTargets (final r) = observationTargets w ∪ {[element]}) /\
  scheduled (emitted r) =
    (if decide (currentModality w = Virtual)
     then [FocusIfUnchanged (activeElement w) element] else []) /\
  forall w',
    let r' := callTask host (FocusIfUnchanged (activeElement w) element) w' in
    currentModality (final r') = currentModality w' /\
    parentNode (final r') = parentNode w' /\
    layout (final r') = layout w' /\
    viewport (final r') = viewport w' /\
    List.filter is_modality_read (emitted r') = [] /\
    Forall (acts_on element) (emitted r') /\
    (activeElement (final r') = activeElement w' \/
     activeElement (final r') = Some element) /\
    (observationTargets (final r') = observationTargets w' \/
     observationTargets (final r') = observationTargets w' ∪ {[element]}).
Proof.
  cbv zeta. destruct (decide (currentModality w = Virtual)) as [Hm|Hm].
  - rewrite focusSafely_virtual_run by exact Hm. cbv zeta.
    cbn [final emitted]. split_and!; try reflexivity.
    + eexists; split; reflexivity.
    + repeat constructor.
    + now left.
    + now left.
    + apply callTask_focus_frame.
  - rewrite focusSafely_direct_run by exact Hm. cbv zeta.
    rewrite focusWithoutScrolling_run.
    destruct (intersectionObserver host) as [observer|];
      [destruct (bool_decide (currentModality w ≠ Pointer));
         [|destruct (activeElement w) as [previous|] eqn:Hprev;
             [destruct (related w previous element)|]]|];
      destruct (contains w Document (Elem element));
      cbn [final emitted set_observationTargets set_activeElement
           currentModality parentNode layout viewport activeElement
           observationTargets];
      rewrite ?Hprev;
      (split_and!;
       [reflexivity | reflexivity | reflexivity | reflexivity
       | eexists; split; reflexivity
       | repeat constructor
       | first [left; reflexivity | right; reflexivity]
       | first [left; reflexivity | right; reflexivity]
       | reflexivity
       | apply callTask_focus_frame]).
Qed.

(** ** The watcher's configuration *)










(** ** Scenarios

    The module run on the example page, step by step. *)

(** Virtual modality, the button (3) has focus, the panel (5) is to be
    focused; before transitions are over the label (4) takes focus.  The
    callback then does nothing and focus stays on the label. *)
Example scenario_focus_moved_meanwhile :
  let runs :=
    play supporting_host
      [CallFocusSafely 5%positive;
       Elsewhere Virtual (Some 4%positive) example_page example_boxes
                 (mkRect 0 0 1024 768);
       TransitionsOver 0]
      (example_world Virtual (Some 3%positive)) in
  map emitted runs =
    [[GetInteractionModality;
      RunAfterTransition (FocusIfUnchanged (Some 3%positive) 5%positive)];
     []; []] /\
  map (fun r => activeElement (final r)) runs =
    [Some 3%positive; Some 4%positive; Some 4%positive].
Proof. split; vm_compute; reflexivity. Qed.

(** The same call, but the panel is removed from the document before
    transitions are over: focus stays on the button. *)
Example scenario_target_removed_meanwhile :
  let runs :=
    play supporting_host
      [CallFocusSafely 5%positive;
       Elsewhere Virtual (Some 3%positive) (delete 5%positive example_page)
                 example_boxes (mkRect 0 0 1024 768);
       TransitionsOver 0]
      (example_world Virtual (Some 3%positive)) in
  map emitted runs =
    [[GetInteractionModality;
      RunAfterTransition (FocusIfUnchanged (Some 3%positive) 5%positive)];
     []; []] /\
  map (fun r => activeElement (final r)) runs =
    [Some 3%positive; Some 3%positive; Some 3%positive].
Proof. split; vm_compute; reflexivity. Qed.

(** Pointer modality, the button has focus, the panel, which is unrelated to
    it and reaches below the viewport, is focused: it is registered, the
    report finds it not intersecting, one scroll is scheduled and the panel
    is unobserved; a second report on it does not happen; the scroll runs
    when transitions are over. *)
Example scenario_pointer_unrelated_offscreen :
  map emitted
    (play supporting_host
       [CallFocusSafely 5%positive;
        IntersectionReport [5%positive];
        IntersectionReport [5%positive];
        TransitionsOver 0]
       (example_world Pointer (Some 3%positive))) =
    [[GetInteractionModality; FocusWithoutScrolling 5%positive;
      Observe 5%positive];
     [RunAfterTransition (ScrollEntryIntoView 5%positive scrollIntoViewOptions);
      Unobserve 5%positive];
     [ScrollIntoView 5%positive scrollIntoViewOptions]].
Proof. vm_compute; reflexivity. Qed.

(** Pointer modality, the button has focus and its label is focused: the
    label is not registered. *)
Example scenario_pointer_descendant :
  let r := focusSafely supporting_host 4%positive
             (example_world Pointer (Some 3%positive)) in
  outcome r = Ok tt /\
  emitted r = [GetInteractionModality; FocusWithoutScrolling 4%positive] /\
  activeElement (final r) = Some 4%positive.
Proof. repeat split; vm_compute; reflexivity. Qed.

(** The target already has focus: the call returns in every modality. *)
Example scenario_already_focused :
  map (fun m => outcome (focusSafely supporting_host 3%positive
                           (example_world m (Some 3%positive))))
      [Keyboard; Pointer; Virtual; Unknown] =
    [Ok tt; Ok tt; Ok tt; Ok tt].
Proof. vm_compute; reflexivity. Qed.

(** * Further properties of focusSafely.ts *)

(** ** Only requested elements are ever touched *)

Section Confinement.

Variable host : Host.
Variable P : Element -> Prop.

Lemma confined_focusSafely element w :
  P element -> confined P w ->
  confined P (final (focusSafely host element w)) /\
  touches_only P (focusSafely host element w).
Proof.
  intros Hel [Hobs Hq]. unfold confined, touches_only.
  destruct (decide (currentModality w = Virtual)) as [Hm|Hm].
  - rewrite focusSafely_virtual_run by exact Hm. cbv zeta. cbn.
    split_and!; [exact Hobs | |].
    + apply Forall_app. split; [exact Hq|]. now repeat constructor.
    + repeat constructor; cbn; congruence.
  - rewrite focusSafely_direct_run by exact Hm. cbv zeta.
    rewrite focusWithoutScrolling_run.
    assert (Hunion : forall el,
              el ∈ observationTargets w ∪ {[element]} -> P el).
    { intros el [Hin|Hin]%elem_of_union; [now apply Hobs|].
      apply elem_of_singleton in Hin. now subst. }
    destruct (intersectionObserver host) as [observer|];
      [destruct (bool_decide (currentModality w ≠ Pointer));
         [|destruct (activeElement w) as [previous|] eqn:Hprev;
             [destruct (related w previous element)|]]|];
      destruct (contains w Document (Elem element));
      cbn; rewrite ?Hprev;
      (split_and!; [assumption | assumption
                   | repeat constructor; cbn; congruence]).
Qed.

Lemma confined_callTask t w :
  P (task_target t) -> confined P w ->
  confined P (final (callTask host t w)) /\
  touches_only P (callTask host t w).
Proof.
  intros Hel [Hobs Hq]. unfold confined, touches_only.
  destruct t as [previous element|target options].
  - rewrite callTask_focus_run. cbn in Hel.
    assert (Hunion : forall el,
              el ∈ observationTargets w ∪ {[element]} -> P el).
    { intros el [Hin|Hin]%elem_of_union; [now apply Hobs|].
      apply elem_of_singleton in Hin. now subst. }
    destruct (bool_decide _ && contains _ _ _);
      [destruct (intersectionObserver host)|];
      cbn; (split_and!; [assumption | assumption
                        | repeat constructor; cbn; congruence]).
  - cbn in *. split_and!; [assumption | assumption |].
    repeat constructor; cbn; congruence.
Qed.

Lemma confined_callback observer entries w :
  Forall (fun e => P (entry_target e)) entries -> confined P w ->
  confined P (final (intersectionObserverCallback entries observer w)) /\
  touches_only P (intersectionObserverCallback entries observer w).
Proof.
  intros Hents [Hobs Hq]. unfold confined, touches_only.
  destruct (intersectionObserverCallback_run observer entries w)
    as (_ & -> & -> & -> & _).
  split_and!.
  - intros el [Hin _]%elem_of_difference. now apply Hobs.
  - apply Forall_app. split; [exact Hq|]. unfold corrections.
    induction Hents as [|e rest He _ IH]; [constructor|].
    cbn [flat_map]. apply Forall_app. split; [|exact IH].
    unfold correction. destruct (isIntersecting e); now repeat constructor.
  - induction Hents as [|e rest He _ IH]; [constructor|].
    cbn [flat_map]. apply Forall_app. split; [|exact IH].
    unfold entry_events, correction.
    destruct (isIntersecting e); repeat constructor; cbn; congruence.
Qed.

Lemma confined_play actions : forall w,
  Forall P (requested actions) -> confined P w ->
  Forall (touches_only P) (play host actions w).
Proof.
  induction actions as [|a rest IH]; intros w Hreq Hw; [constructor|].
  destruct a as [element|i|targets|m active parents boxes view].
  - cbn [requested omap] in Hreq. apply Forall_cons in Hreq as [Hel Hreq].
    cbn [play step].
    destruct (confined_focusSafely element w Hel Hw) as [Hw' Ht].
    constructor; [exact Ht|]. now apply IH.
  - cbn [play step].
    destruct (transitionCallbacks w !! i) as [t|] eqn:Hi; [|now apply IH].
    destruct Hw as [Hobs Hq].
    assert (Ht : P (task_target t)).
    { rewrite Forall_forall in Hq. apply Hq.
      eapply list_elem_of_lookup_2, Hi. }
    destruct (confined_callTask t
                (set_transitionCallbacks (delete i (transitionCallbacks w)) w)
                Ht) as [Hw' Hrun].
    { split; [exact Hobs|]. cbn. now apply Forall_delete. }
    constructor; [exact Hrun|]. now apply IH.
  - cbn [play step].
    destruct (intersectionObserver host) as [observer|]; [|now apply IH].
    case_bool_decide as Hen; [|now apply IH].
    destruct Hen as [_ Hall].
    destruct (confined_callback observer (map (host_entry observer w) targets) w)
      as [Hw' Hrun]; [|exact Hw|].
    { apply Forall_map. cbn. eapply Forall_impl; [exact Hall|].
      intros el Hin. now apply Hw. }
    constructor; [exact Hrun|]. now apply IH.
  - cbn [play step]. constructor.
    + constructor.
    + apply IH; [exact Hreq|]. exact Hw.
Qed.

End Confinement.

(** X3. Whatever callers, the scheduler, the observer and the rest of the page
    do, starting with nothing observed and nothing queued, every primitive
    the module calls ([focusWithoutScrolling], [runAfterTransition],
    [observe], [unobserve], [scrollIntoView]) is called on an element that
    was passed to [focusSafely] in that sequence: nothing else is ever
    focused, observed or scrolled. *)
Theorem play_touches_requested_only host actions w :
  observationTargets w = ∅ ->
  transitionCallbacks w = [] ->
  Forall (touches_only (fun el => el ∈ requested actions))
         (play host actions w).
Proof.
  intros Hobs Hq. apply confined_play.
  - now apply Forall_forall.
  - split.
    + intros el. rewrite Hobs. intros Hin. now apply not_elem_of_empty in Hin.
    + rewrite Hq. constructor.
Qed.

Lemma play_touches_requested_only_witness :
  observationTargets (example_world Pointer (Some 3%positive)) = ∅ /\
  transitionCallbacks (example_world Pointer (Some 3%positive)) = [] /\
  Forall (touches_only
            (fun el => el ∈ requested [CallFocusSafely 5%positive;
                                       IntersectionReport [5%positive];
                                       TransitionsOver 0]))
         (play supporting_host
            [CallFocusSafely 5%positive; IntersectionReport [5%positive];
             TransitionsOver 0]
            (example_world Pointer (Some 3%positive))).
Proof.
  split; [reflexivity|]. split; [reflexivity|].
  exact (play_touches_requested_only supporting_host
           [CallFocusSafely 5%positive; IntersectionReport [5%positive];
            TransitionsOver 0]
           (example_world Pointer (Some 3%positive)) eq_refl eq_refl).
Defined.

(** ** A registration cleans up after itself *)

Lemma difference_union_fresh (s : gset Element) el :
  el ∉ s -> (s ∪ {[el]}) ∖ {[el]} = s.
Proof.
  intros Hfresh. apply set_eq. intros x.
  rewrite elem_of_difference, elem_of_union, elem_of_singleton.
  split; [intros [[?|?] ?]; [assumption|contradiction]|].
  intros Hx. split; [now left|]. intros ->. contradiction.
Qed.

Lemma difference_union_same (s : gset Element) el :
  (s ∪ {[el]}) ∖ {[el]} = s ∖ {[el]}.
Proof.
  apply set_eq. intros x.
  rewrite !elem_of_difference, elem_of_union, elem_of_singleton.
  split; [intros [[?|?] ?]; [now split|contradiction]|].
  intros [Hx Hne]. split; [now left|exact Hne].
Qed.

Lemma difference_fresh (s : gset Element) el :
  el ∉ s -> s ∖ {[el]} = s.
Proof.
  intros Hfresh. rewrite <- (difference_union_fresh s el Hfresh) at 2.
  symmetry. apply difference_union_same.
Qed.

(** X4. In keyboard or unknown modality, with the watcher present, a call
    registers the target; the report on it unobserves it again, so the
    watcher ends with the targets it had before the call less the target
    itself: the very targets it had before when the target was not among
    them, one fewer when it was.  If the target was reported as
    intersecting the queue is as before the call; otherwise it holds one
    more callback, the scheduler's run of it makes the one [scrollIntoView]
    call, and after that the queue is as before. *)
Theorem registration_is_self_cleaning host observer element w :
  intersectionObserver host = Some observer ->
  currentModality w = Keyboard \/ currentModality w = Unknown ->
  exists r1 r2,
    step host (CallFocusSafely element) w = Some r1 /\
    observationTargets (final r1) = observationTargets w ∪ {[element]} /\
    element ∈ observationTargets (final r1) /\
    step host (IntersectionReport [element]) (final r1) = Some r2 /\
    (element ∉ observationTargets (final r2)) /\
    observationTargets (final r2) = observationTargets w ∖ {[element]} /\
    (element ∉ observationTargets w ->
     observationTargets (final r2) = observationTargets w) /\
    (element ∈ observationTargets w ->
     observationTargets (final r2) <> observationTargets w) /\
    if host_isIntersecting observer (final r1) element
    then transitionCallbacks (final r2) = transitionCallbacks w
    else
      exists r3,
        step host (TransitionsOver (length (transitionCallbacks w))) (final r2)
          = Some r3 /\
        emitted r3 = [ScrollIntoView element scrollIntoViewOptions] /\
        transitionCallbacks (final r3) = transitionCallbacks w /\
        observationTargets (final r3) = observationTargets (final r2).
Proof.
  intros Hobs Hm.
  assert (Hnv : currentModality w <> Virtual)
    by (destruct Hm as [-> | ->]; discriminate).
  assert (Hnp : currentModality w ≠ Pointer)
    by (destruct Hm as [-> | ->]; discriminate).
  assert (Hgone : element ∉ observationTargets w ∖ {[element]})
    by (apply not_elem_of_difference; right; now apply elem_of_singleton).
  assert (Hless : element ∈ observationTargets w ->
                  observationTargets w ∖ {[element]} <> observationTargets w)
    by (intros Hin Heq; apply Hgone; now rewrite Heq).
  exists (focusSafely host element w).
  exists (intersectionObserverCallback
            (map (host_entry observer (final (focusSafely host element w)))
                 [element])
            observer (final (focusSafely host element w))).
  split; [reflexivity|].
  rewrite (focusSafely_direct_run host element w Hnv). cbv zeta.
  rewrite Hobs, (bool_decide_eq_true_2 _ Hnp), focusWithoutScrolling_run.
  cbn [final]. remember (set_observationTargets _ _) as w2 eqn:Hw2.
  assert (Ht2 : observationTargets w2 = observationTargets w ∪ {[element]})
    by (subst w2; now destruct (contains w Document (Elem element))).
  assert (Hq2 : transitionCallbacks w2 = transitionCallbacks w)
    by (subst w2; now destruct (contains w Document (Elem element))).
  clear Hw2.
  assert (Hin : element ∈ observationTargets w2)
    by (rewrite Ht2; apply elem_of_union; right; now apply elem_of_singleton).
  split; [exact Ht2|]. split; [exact Hin|].
  unfold step. rewrite Hobs.
  rewrite bool_decide_eq_true_2
    by (split; [apply NoDup_singleton | constructor; [exact Hin | constructor]]).
  split; [reflexivity|].
  cbn [map]. rewrite intersectionObserverCallback_cons,
    intersectionObserverCallback_nil. cbv zeta. cbn [final].
  unfold entry_world, host_entry, correction.
  cbn [entry_target isIntersecting].
  destruct (host_isIntersecting observer w2 element); cbn;
    rewrite Ht2, Hq2, difference_union_same.
  - split_and!; try reflexivity; try assumption.
    intros Hfresh. now apply difference_fresh.
  - split; [exact Hgone|]. split; [reflexivity|].
    split; [intros Hfresh; now apply difference_fresh|].
    split; [exact Hless|].
    rewrite list_lookup_middle by reflexivity.
    eexists. split; [reflexivity|]. unfold callTask, scrollIntoView. cbn.
    rewrite delete_middle, app_nil_r.
    split_and!; reflexivity.
Qed.

Lemma registration_is_self_cleaning_witness :
  intersectionObserver supporting_host =
    Some {| io_root := None; io_rootMargin := no_margins; io_threshold := 1 |} /\
  (currentModality (example_world Keyboard (Some 3%positive)) = Keyboard \/
   currentModality (example_world Keyboard (Some 3%positive)) = Unknown) /\
  exists r1 r2,
    step supporting_host (CallFocusSafely 5%positive)
      (example_world Keyboard (Some 3%positive)) = Some r1 /\
    5%positive ∈ observationTargets (final r1) /\
    step supporting_host (IntersectionReport [5%positive]) (final r1)
      = Some r2 /\
    observationTargets (final r2) =
      observationTargets (example_world Keyboard (Some 3%positive)).
Proof.
  split; [reflexivity|]. split; [now left|].
  destruct (registration_is_self_cleaning supporting_host _ 5%positive
              (example_world Keyboard (Some 3%positive))
              (intersectionObserver_supported supporting_host eq_refl)
              (or_introl eq_refl))
    as (r1 & r2 & H1 & _ & H2 & H3 & _ & _ & H4 & _).
  exists r1, r2. split; [exact H1|]. split; [exact H2|].
  split; [exact H3|]. apply H4, not_elem_of_empty.
Defined.

(** ** Of two pending virtual requests the first to run wins *)



(** ** What handling a report leaves alone *)

Lemma no_focus_in_entry_events entries :
  List.filter is_focus (flat_map entry_events entries) = [].
Proof.
  induction entries as [|entry rest IH]; [reflexivity|].
  cbn [flat_map]. rewrite List.filter_app, IH, app_nil_r.
  unfold entry_events, correction. now destruct (isIntersecting entry).
Qed.

Lemma length_corrections entries :
  length (corrections entries) =
  length (List.filter (fun e => negb (isIntersecting e)) entries).
Proof.
  unfold corrections.
  induction entries as [|entry rest IH]; [reflexivity|].
  cbn [flat_map List.filter]. rewrite length_app, IH. unfold correction.
  now destruct (isIntersecting entry).
Qed.

(** X6. The watcher's callback returns without error and calls
    [focusWithoutScrolling] on nothing; it leaves the focused element, the
    modality, the DOM tree and the layout as they were; it unobserves the
    reported targets and no other element; and it schedules one callback per
    entry that is not intersecting, so a target listed twice gets two. *)
Theorem intersectionObserverCallback_frame observer entries w :
  let r := intersectionObserverCallback entries observer w in
  outcome r = Ok tt /\
  List.filter is_focus (emitted r) = [] /\
  activeElement (final r) = activeElement w /\
  currentModality (final r) = currentModality w /\
  parentNode (final r) = parentNode w /\
  layout (final r) = layout w /\
  viewport (final r) = viewport w /\
  (forall el,
     el ∈ observationTargets (final r) <->
     el ∈ observationTargets w /\ ~ In el (map entry_target entries)) /\
  length (scheduled (emitted r)) =
    length (List.filter (fun e => negb (isIntersecting e)) entries).
Proof.
  cbv zeta.
  destruct (intersectionObserverCallback_run observer entries w)
    as (Ho & He & Hq & Ht & Hm & Ha & Hp & Hl & Hv).
  rewrite He, Ht, no_focus_in_entry_events, scheduled_entry_events,
    length_corrections.
  split_and!; try assumption; try reflexivity.
  intros el. rewrite elem_of_difference, elem_of_list_to_set, list_elem_of_In.
  reflexivity.
Qed.

(** ** The identity test of line 83 *)

(** X7. [Node.contains] holds between an element and itself, so the third
    disjunct of lines 81-83, [element === lastFocusedElement], never changes
    what the test returns or whether it throws: the test runs like the
    disjunction of the two containment tests alone. *)
Theorem identity_test_is_subsumed lastFocusedElement element w :
  orM (node_contains lastFocusedElement (Some element))
      (orM (node_contains (Some element) lastFocusedElement)
           (ret (bool_decide (Some element = lastFocusedElement)))) w =
  orM (node_contains lastFocusedElement (Some element))
      (node_contains (Some element) lastFocusedElement) w.
Proof.
  destruct lastFocusedElement as [previous|]; [|reflexivity].
  run_cbv.
  destruct (contains w (Elem previous) (Elem element)) eqn:Hdown;
    [reflexivity|].
  destruct (contains w (Elem element) (Elem previous)) eqn:Hup;
    [reflexivity|].
  rewrite bool_decide_eq_false_2; [reflexivity|].
  intros [= ->]. rewrite contains_self in Hup. discriminate.
Qed.

(** * Properties of useMenuItem.ts *)

Section MenuItemProperties.

Import MenuItem.

Variables (props : AriaMenuItemProps) (state : TreeState)
          (data : option MenuData)
          (labelId descriptionId keyboardId : option string).

(** The shape of a successful result: the callbacks the hook settled on and
    what the handlers do with them. *)
Lemma useMenuItem_Ok locals :
  useMenuItem props state data labelId descriptionId keyboardId = Ok locals ->
  exists onClose onAction,
    prop_or_data (props_onClose props) data data_onClose = Ok onClose /\
    (if defined (props_aria_haspopup props) then Ok (Some Noop)
     else Result_map (option_map Given)
            (prop_or_data (props_onAction props) data data_onAction))
      = Ok onAction /\
    (forall e,
       onPressStart locals e =
         (if bool_decide (pointerType e = PointerKeyboard)
          then call_onAction onAction (props_key props) else [])
         ++ (if props_onPressStart props then [PressStartProp e] else [])) /\
    (forall e,
       onPressUp locals e =
         if bool_decide (pointerType e <> PointerKeyboard) then
           call_onAction onAction (props_key props)
           ++ (if negb (defined (props_aria_haspopup props)) && defined onClose
                  && nullish (props_closeOnSelect props)
                       (bool_decide (selectionMode state <> SelectMultiple))
               then call_onClose onClose else [])
         else []) /\
    (forall e,
       onKeyDown locals e =
         if event_repeat e then [ContinuePropagation]
         else if String.eqb (event_key e) " " then
           if negb (isDisabled locals)
              && bool_decide (selectionMode state = SelectNone)
              && negb (defined (props_aria_haspopup props))
              && negb (bool_decide (props_closeOnSelect props = Some false))
              && defined onClose
           then call_onClose onClose else []
         else if String.eqb (event_key e) "Enter" then
           if negb (isDisabled locals)
              && negb (bool_decide (props_closeOnSelect props = Some false))
              && negb (defined (props_aria_haspopup props))
              && defined onClose
           then call_onClose onClose else []
         else [ContinuePropagation]).
Proof.
  unfold useMenuItem. intros H.
  destruct (prop_or_data (props_onClose props) data data_onClose)
    as [onClose|] eqn:Hc; [|discriminate].
  cbn [Result_bind] in H.
  destruct (if defined (props_aria_haspopup props) then Ok (Some Noop)
            else Result_map (option_map Given)
                   (prop_or_data (props_onAction props) data data_onAction))
    as [onAction|] eqn:Ha; [|discriminate].
  cbn [Result_bind] in H.
  destruct (if nullish (props_isVirtualized props) false then _ else _)
    as [position|]; [|discriminate].
  cbn [Result_bind] in H. injection H as <-.
  exists onClose, onAction. cbn. repeat split.
Qed.

(** The attributes of a successful result. *)
Lemma useMenuItem_Ok_aria locals :
  useMenuItem props state data labelId descriptionId keyboardId = Ok locals ->
  let trigger := defined (props_aria_haspopup props) in
  isDisabled locals =
    nullish (props_isDisabled props) (disabledKeys_has state (props_key props)) /\
  isSelected locals =
    nullish (props_isSelected props)
            (selectionManager_isSelected state (props_key props)) /\
  aria_disabled (ariaProps locals) =
    (if isDisabled locals then Some true else None) /\
  role (ariaProps locals) =
    (if negb trigger then
       if decide (selectionMode state = SelectSingle) then menuitemradio
       else if decide (selectionMode state = SelectMultiple)
            then menuitemcheckbox else menuitem
     else menuitem) /\
  aria_checked (ariaProps locals) =
    (if bool_decide (selectionMode state <> SelectNone) && negb trigger
     then Some (isSelected locals) else None) /\
  aria_describedby (ariaProps locals) = describedby descriptionId keyboardId /\
  aria_controls (ariaProps locals) =
    (if trigger then props_aria_controls props else None) /\
  aria_expanded (ariaProps locals) =
    (if trigger then props_aria_expanded props else None) /\
  aria_posinset (ariaProps locals) =
    (if nullish (props_isVirtualized props) false
     then index <$> collection_getItem state (props_key props) else None) /\
  aria_setsize (ariaProps locals) =
    (if nullish (props_isVirtualized props) false
     then Some (collection_itemCount state) else None).
Proof.
  unfold useMenuItem. intros H.
  destruct (prop_or_data (props_onClose props) data data_onClose)
    as [onClose|] eqn:Hc; [|discriminate].
  cbn [Result_bind] in H.
  destruct (if defined (props_aria_haspopup props) then Ok (Some Noop)
            else Result_map (option_map Given)
                   (prop_or_data (props_onAction props) data data_onAction))
    as [onAction|] eqn:Ha; [|discriminate].
  cbn [Result_bind] in H.
  destruct (nullish (props_isVirtualized props) false);
    [destruct (collection_getItem state (props_key props)) as [item|];
       [|discriminate]|];
    cbn [Result_bind] in H; injection H as <-; cbn; repeat split.
Qed.

(** X8. The hook throws, a TypeError, in exactly two situations: the menu's
    data is missing for the state and must be read, because [onClose] is not
    passed or because the item is no trigger and [onAction] is not passed;
    or the item is virtualized and its key is not in the collection. *)
Theorem useMenuItem_throws_iff :
  useMenuItem props state data labelId descriptionId keyboardId
    = Throw TypeError <->
  (data = None /\
   (props_onClose props = false \/
    (props_aria_haspopup props = None /\ props_onAction props = false))) \/
  (props_isVirtualized props = Some true /\
   collection_getItem state (props_key props) = None).
Proof.
  unfold useMenuItem, prop_or_data.
  destruct (props_onClose props), (props_aria_haspopup props) as [popup|],
    (props_onAction props), data as [menu|],
    (props_isVirtualized props) as [[|]|],
    (collection_getItem state (props_key props)) as [item|];
    cbn; split; intros H; try discriminate; try reflexivity;
    try (right; now split);
    try (left; split; [reflexivity|]; first [now left | right; now split]);
    exfalso;
    repeat match goal with
           | H : _ \/ _ |- _ => destruct H
           | H : _ /\ _ |- _ => destruct H
           end; discriminate.
Qed.

(** X9. An item that opens a popup ([aria-haspopup]) calls neither [onAction]
    nor [onClose] from any handler, whether they are passed as props or set
    on the menu: press start only forwards to [props.onPressStart], press up
    does nothing, and the key handler at most continues propagation.  Its
    role is [menuitem] and it has no [aria-checked], in every selection
    mode. *)
Theorem trigger_item_never_acts_or_closes locals popup :
  props_aria_haspopup props = Some popup ->
  useMenuItem props state data labelId descriptionId keyboardId = Ok locals ->
  (forall e,
     onPressStart locals e =
       if props_onPressStart props then [PressStartProp e] else []) /\
  (forall e, onPressUp locals e = []) /\
  (forall e,
     onKeyDown locals e = [] \/ onKeyDown locals e = [ContinuePropagation]) /\
  role (ariaProps locals) = menuitem /\
  aria_checked (ariaProps locals) = None.
Proof.
  intros Hpopup Hok.
  destruct (useMenuItem_Ok locals Hok)
    as (onClose & onAction & _ & Hact & Hstart & Hup & Hkey).
  destruct (useMenuItem_Ok_aria locals Hok)
    as (_ & _ & _ & Hrole & Hchecked & _).
  rewrite Hpopup in *. cbn [defined negb andb] in *.
  injection Hact as <-.
  split_and!.
  - intros e. rewrite Hstart.
    now destruct (bool_decide (pointerType e = PointerKeyboard)).
  - intros e. rewrite Hup.
    now destruct (bool_decide (pointerType e <> PointerKeyboard)).
  - intros e. rewrite Hkey.
    destruct (event_repeat e); [now right|].
    destruct (String.eqb (event_key e) " ").
    { left. now rewrite !andb_false_r. }
    destruct (String.eqb (event_key e) "Enter"); [|now right].
    left. now rewrite !andb_false_r.
  - exact Hrole.
  - rewrite Hchecked. now rewrite andb_false_r.
Qed.

(** X10. Away from triggers, one press calls the action callback exactly once:
    at press start, and not at press up, for a keyboard press; at press up,
    and not at press start, for any other pointer type.  The callback is the
    item's own [onAction] when that is passed and the menu's otherwise; when
    the item has its own, the menu's is not called; when there is neither,
    nothing is called. *)
Theorem action_fires_once_per_press locals :
  props_aria_haspopup props = None ->
  useMenuItem props state data labelId descriptionId keyboardId = Ok locals ->
  forall e,
    let action :=
      if props_onAction props then [OnAction FromProps (props_key props)]
      else match data with
           | Some menu =>
               if data_onAction menu
               then [OnAction FromMenu (props_key props)] else []
           | None => []
           end in
    List.filter is_action (onPressStart locals e) =
      (if bool_decide (pointerType e = PointerKeyboard)
       then action else []) /\
    List.filter is_action (onPressUp locals e) =
      (if bool_decide (pointerType e = PointerKeyboard)
       then [] else action) /\
    List.filter is_action (onPressStart locals e ++ onPressUp locals e) =
      action.
Proof.
  intros Hpopup Hok e. cbv zeta.
  destruct (useMenuItem_Ok locals Hok)
    as (onClose & onAction & _ & Hact & Hstart & Hup & _).
  rewrite List.filter_app.
  rewrite Hstart, Hup. rewrite Hpopup in *. cbn [defined negb andb] in *.
  unfold prop_or_data in Hact.
  assert (Hcalls : call_onAction onAction (props_key props) =
            if props_onAction props then [OnAction FromProps (props_key props)]
            else match data with
                 | Some menu =>
                     if data_onAction menu
                     then [OnAction FromMenu (props_key props)] else []
                 | None => []
                 end).
  { destruct (props_onAction props); [now injection Hact as <-|].
    destruct data as [menu|]; [|discriminate].
    destruct (data_onAction menu); now injection Hact as <-. }
  rewrite Hcalls. clear Hact Hcalls.
  assert (Hnc : forall c, List.filter is_action (call_onClose c) = [])
    by (now intros [o|]).
  assert (Hself : forall l,
            (l = [] \/ exists o k, l = [OnAction o k]) ->
            List.filter is_action l = l)
    by (intros l [->|(o & k & ->)]; reflexivity).
  assert (Hshape : forall l : list Call,
            l = (if props_onAction props
                 then [OnAction FromProps (props_key props)]
                 else match data with
                      | Some menu =>
                          if data_onAction menu
                          then [OnAction FromMenu (props_key props)] else []
                      | None => []
                      end) ->
            l = [] \/ exists o k, l = [OnAction o k]).
  { intros l ->. destruct (props_onAction props); [right; eauto|].
    destruct data as [menu|]; [|now left].
    destruct (data_onAction menu); [right; eauto | now left]. }
  assert (Hps : List.filter is_action
                  (if props_onPressStart props then [PressStartProp e] else [])
                = []) by (now destruct (props_onPressStart props)).
  destruct (decide (pointerType e = PointerKeyboard)) as [Hk|Hk].
  - rewrite (bool_decide_eq_true_2 _ Hk).
    rewrite bool_decide_eq_false_2 by (intros Hn; now apply Hn).
    rewrite List.filter_app, Hps, !app_nil_r.
    rewrite (Hself _ (Hshape _ eq_refl)). cbn [List.filter].
    rewrite ?app_nil_r. now split_and!.
  - rewrite (bool_decide_eq_false_2 _ Hk), (bool_decide_eq_true_2 _ Hk).
    cbn [app]. rewrite Hps. cbn [app].
    assert (Hup' : forall c (t : bool),
              List.filter is_action
                ((if props_onAction props
                  then [OnAction FromProps (props_key props)]
                  else match data with
                       | Some menu =>
                           if data_onAction menu
                           then [OnAction FromMenu (props_key props)] else []
                       | None => []
                       end) ++ (if t then call_onClose c else [])) =
              (if props_onAction props
               then [OnAction FromProps (props_key props)]
               else match data with
                    | Some menu =>
                        if data_onAction menu
                        then [OnAction FromMenu (props_key props)] else []
                    | None => []
                    end)).
    { intros c t. rewrite List.filter_app, (Hself _ (Hshape _ eq_refl)).
      destruct t; rewrite ?Hnc; cbn [List.filter]; apply app_nil_r. }
    rewrite Hup'. now split_and!.
Qed.

(** X11. With [closeOnSelect] set to [false] no handler closes the menu: not a
    press of any pointer type, not Enter, not Space. *)
Theorem closeOnSelect_false_never_closes locals :
  props_closeOnSelect props = Some false ->
  useMenuItem props state data labelId descriptionId keyboardId = Ok locals ->
  (forall e, closes (onPressStart locals e) = false) /\
  (forall e, closes (onPressUp locals e) = false) /\
  (forall e, closes (onKeyDown locals e) = false).
Proof.
  intros Hcos Hok.
  destruct (useMenuItem_Ok locals Hok)
    as (onClose & onAction & _ & _ & Hstart & Hup & Hkey).
  assert (Hna : forall a k, closes (call_onAction a k) = false)
    by (now intros [[|o]|] k).
  unfold closes in *.
  split_and!; intros e.
  - rewrite Hstart, existsb_app.
    destruct (bool_decide (pointerType e = PointerKeyboard)); rewrite ?Hna;
      now destruct (props_onPressStart props).
  - rewrite Hup, Hcos. cbn [nullish]. rewrite andb_false_r.
    destruct (bool_decide (pointerType e <> PointerKeyboard)); [|reflexivity].
    now rewrite app_nil_r, Hna.
  - rewrite Hkey, Hcos.
    rewrite (bool_decide_eq_true_2 (Some false = Some false) eq_refl).
    cbn [negb]. rewrite !andb_false_r. cbn [andb].
    destruct (event_repeat e); [reflexivity|].
    destruct (String.eqb (event_key e) " "); [reflexivity|].
    now destruct (String.eqb (event_key e) "Enter").
Qed.

(** X12. Enter is the most permissive way to close: whenever Space closes the
    menu, Enter does, and on an item that is not disabled, whenever a press
    closes it, Enter does. *)
Theorem Enter_closes_whenever_others_do locals (space enter : KeyboardEvent) :
  useMenuItem props state data labelId descriptionId keyboardId = Ok locals ->
  event_key space = " " -> event_repeat space = false ->
  event_key enter = "Enter" -> event_repeat enter = false ->
  (closes (onKeyDown locals space) = true ->
   closes (onKeyDown locals enter) = true) /\
  (isDisabled locals = false ->
   forall e, closes (onPressUp locals e) = true ->
             closes (onKeyDown locals enter) = true).
Proof.
  intros Hok Hsk Hsr Hek Her.
  destruct (useMenuItem_Ok locals Hok)
    as (onClose & onAction & _ & _ & _ & Hup & Hkey).
  assert (Hna : forall a k, existsb is_close (call_onAction a k) = false)
    by (now intros [[|o]|] k).
  unfold closes. rewrite !Hkey, Hsk, Hsr, Hek, Her. cbn [String.eqb Ascii.eqb
    Bool.eqb andb].
  split.
  - destruct (negb (isDisabled locals)); [|discriminate].
    destruct (bool_decide (selectionMode state = SelectNone)); [|discriminate].
    destruct (negb (defined (props_aria_haspopup props))); [|discriminate].
    destruct (negb (bool_decide (props_closeOnSelect props = Some false)));
      [|discriminate].
    now destruct (defined onClose).
  - intros Hen e. rewrite Hup, Hen.
    destruct (bool_decide (pointerType e <> PointerKeyboard)); [|discriminate].
    rewrite existsb_app, Hna. cbn [orb negb andb].
    destruct (negb (defined (props_aria_haspopup props))); [|discriminate].
    destruct (defined onClose); [|discriminate]. cbn [andb].
    destruct (props_closeOnSelect props) as [[|]|]; cbn [nullish].
    + rewrite (bool_decide_eq_false_2 (Some true = Some false))
        by congruence. auto.
    + discriminate.
    + rewrite (bool_decide_eq_false_2 (None = Some false)) by congruence.
      cbn [negb andb].
      destruct (bool_decide (selectionMode state <> SelectMultiple));
        [auto | discriminate].
Qed.

(** X13. The key handler either takes a key or lets it go on, never both: a
    repeated key and any key but Space and Enter only continue propagation;
    a first Space or Enter is never propagated, whether or not the item is
    disabled and whether or not the menu closes. *)
Theorem onKeyDown_takes_or_propagates locals :
  useMenuItem props state data labelId descriptionId keyboardId = Ok locals ->
  forall e,
    if event_repeat e
       || negb (String.eqb (event_key e) " " || String.eqb (event_key e) "Enter")
    then onKeyDown locals e = [ContinuePropagation]
    else List.filter is_propagation (onKeyDown locals e) = [] /\
         length (onKeyDown locals e) <= 1.
Proof.
  intros Hok e.
  destruct (useMenuItem_Ok locals Hok)
    as (onClose & onAction & _ & _ & _ & _ & Hkey).
  rewrite Hkey.
  assert (Hc : List.filter is_propagation (call_onClose onClose) = [] /\
               length (call_onClose onClose) <= 1)
    by (destruct onClose; cbn; split; auto).
  clear Hkey.
  destruct (event_repeat e); [reflexivity|]. cbn [orb].
  destruct (String.eqb (event_key e) " ").
  { cbn [orb negb].
    match goal with
    | |- context [if ?b then call_onClose _ else _] => destruct b
    end; [exact Hc | split; cbn; auto]. }
  destruct (String.eqb (event_key e) "Enter"); cbn [orb negb]; [|reflexivity].
  match goal with
  | |- context [if ?b then call_onClose _ else _] => destruct b
  end; [exact Hc | split; cbn; auto].
Qed.

(** X14. The ARIA attributes agree with each other: the role is [menuitem]
    exactly when [aria-checked] is absent, [menuitemradio] and
    [menuitemcheckbox] go with single and multiple selection away from
    triggers, [aria-checked] carries the returned [isSelected],
    [aria-disabled] is [true] or absent and follows the returned
    [isDisabled], [aria-posinset] and [aria-setsize] come together, and
    [aria-expanded] and [aria-controls] are absent away from triggers. *)
Theorem aria_attributes_agree locals :
  useMenuItem props state data labelId descriptionId keyboardId = Ok locals ->
  let a := ariaProps locals in
  (role a = menuitem <-> aria_checked a = None) /\
  (role a = menuitemradio <->
   selectionMode state = SelectSingle /\ props_aria_haspopup props = None) /\
  (role a = menuitemcheckbox <->
   selectionMode state = SelectMultiple /\ props_aria_haspopup props = None) /\
  (forall b, aria_checked a = Some b -> b = isSelected locals) /\
  aria_disabled a = (if isDisabled locals then Some true else None) /\
  (is_Some (aria_posinset a) <-> is_Some (aria_setsize a)) /\
  (is_Some (aria_posinset a) <-> props_isVirtualized props = Some true) /\
  (props_aria_haspopup props = None ->
   aria_expanded a = None /\ aria_controls a = None).
Proof.
  intros Hok. cbv zeta.
  destruct (useMenuItem_Ok_aria locals Hok)
    as (_ & _ & Hdis & Hrole & Hchecked & _ & Hctl & Hexp & Hpos & Hset).
  assert (Hvirt : nullish (props_isVirtualized props) false = true ->
                  is_Some (collection_getItem state (props_key props))).
  { intros Hv. pose proof (proj2 useMenuItem_throws_iff) as Hthrow.
    destruct (collection_getItem state (props_key props)); [eauto|].
    rewrite Hok in Hthrow. exfalso.
    assert (Ok locals = Throw TypeError); [|discriminate].
    apply Hthrow. right. split; [|reflexivity].
    now destruct (props_isVirtualized props) as [[|]|]. }
  rewrite Hrole, Hchecked, Hdis, Hctl, Hexp, Hpos, Hset.
  split_and!.
  - destruct (props_aria_haspopup props), (selectionMode state);
      vm_compute; split; intros; congruence.
  - destruct (props_aria_haspopup props), (selectionMode state);
      vm_compute; split; intros H; try discriminate;
      try (destruct H; discriminate); now split.
  - destruct (props_aria_haspopup props), (selectionMode state);
      vm_compute; split; intros H; try discriminate;
      try (destruct H; discriminate); now split.
  - intros b. destruct (_ && _); congruence.
  - reflexivity.
  - destruct (nullish (props_isVirtualized props) false) eqn:Hv; cbn.
    + destruct (Hvirt eq_refl) as [item ->]. cbn. split; eauto.
    + split; intros [? ?]; discriminate.
  - destruct (nullish (props_isVirtualized props) false) eqn:Hv; cbn.
    + destruct (Hvirt eq_refl) as [item ->]. cbn.
      destruct (props_isVirtualized props) as [[|]|]; try discriminate.
      split; eauto.
    + destruct (props_isVirtualized props) as [[|]|]; try discriminate;
        split; intros H; try discriminate; destruct H; discriminate.
  - intros ->. now split.
Qed.

End MenuItemProperties.

(** X15. [aria-describedby] lists the ids of the description and of the keyboard
    shortcut that are rendered (defined and not empty), in that order and
    separated by one space, and is absent when neither is. *)
Theorem describedby_lists_rendered_ids descriptionId keyboardId :
  MenuItem.describedby descriptionId keyboardId =
    match MenuItem.truthy_string descriptionId,
          MenuItem.truthy_string keyboardId with
    | true, true =>
        Some (default EmptyString descriptionId +:+ " "
              +:+ default EmptyString keyboardId)
    | true, false => descriptionId
    | false, true => keyboardId
    | false, false => None
    end.
Proof.
  unfold MenuItem.describedby.
  destruct descriptionId as [[|c d]|], keyboardId as [[|c' k]|]; reflexivity.
Qed.

Section MenuItemWitnesses.

Import MenuItem.

Lemma trigger_item_never_acts_or_closes_witness :
  props_aria_haspopup (example_props "paste" (Some PopupMenu) None None)
    = Some PopupMenu /\
  exists locals,
    useMenuItem (example_props "paste" (Some PopupMenu) None None)
      (example_state SelectMultiple) example_data None None None = Ok locals /\
    role (ariaProps locals) = menuitem.
Proof.
  split; [reflexivity|]. eexists. split; [reflexivity|].
  exact (proj1 (proj2 (proj2 (proj2
           (trigger_item_never_acts_or_closes
              (example_props "paste" (Some PopupMenu) None None)
              (example_state SelectMultiple) example_data None None None
              _ PopupMenu eq_refl eq_refl))))).
Defined.

Lemma action_fires_once_per_press_witness :
  props_aria_haspopup (example_props "copy" None None None) = None /\
  exists locals,
    useMenuItem (example_props "copy" None None None)
      (example_state SelectSingle) example_data None None None = Ok locals /\
    List.filter is_action
      (onPressStart locals {| pointerType := PointerKeyboard |}) =
      [OnAction FromProps (Some "copy")] /\
    List.filter is_action
      (onPressUp locals {| pointerType := PointerKeyboard |}) = [] /\
    List.filter is_action
      (onPressStart locals {| pointerType := PointerKeyboard |}
       ++ onPressUp locals {| pointerType := PointerKeyboard |}) =
      [OnAction FromProps (Some "copy")].
Proof.
  split; [reflexivity|]. eexists. split; [reflexivity|].
  exact (action_fires_once_per_press
           (example_props "copy" None None None)
           (example_state SelectSingle) example_data None None None
           _ eq_refl eq_refl {| pointerType := PointerKeyboard |}).
Defined.

Lemma closeOnSelect_false_never_closes_witness :
  props_closeOnSelect (example_props "copy" None (Some false) None)
    = Some false /\
  exists locals,
    useMenuItem (example_props "copy" None (Some false) None)
      (example_state SelectNone) example_data None None None = Ok locals /\
    forall e, closes (onKeyDown locals e) = false.
Proof.
  split; [reflexivity|]. eexists. split; [reflexivity|].
  exact (proj2 (proj2
           (closeOnSelect_false_never_closes
              (example_props "copy" None (Some false) None)
              (example_state SelectNone) example_data None None None
              _ eq_refl eq_refl))).
Defined.

(** In multiple selection a press does not close the menu and Enter does:
    the converse of the second part fails. *)
Lemma Enter_closes_whenever_others_do_witness :
  exists locals,
    useMenuItem (example_props "copy" None None None)
      (example_state SelectMultiple) example_data None None None = Ok locals /\
    closes (onPressUp locals {| pointerType := PointerMouse |}) = false /\
    closes (onKeyDown locals {| event_key := "Enter"; event_repeat := false |})
      = true /\
    (closes (onKeyDown locals {| event_key := " "; event_repeat := false |})
       = true ->
     closes (onKeyDown locals {| event_key := "Enter"; event_repeat := false |})
       = true).
Proof.
  eexists. split; [reflexivity|]. split; [reflexivity|].
  split; [reflexivity|].
  exact (proj1
           (Enter_closes_whenever_others_do
              (example_props "copy" None None None)
              (example_state SelectMultiple) example_data None None None
              _ {| event_key := " "; event_repeat := false |}
              {| event_key := "Enter"; event_repeat := false |}
              eq_refl eq_refl eq_refl eq_refl eq_refl)).
Defined.

Lemma onKeyDown_takes_or_propagates_witness :
  exists locals,
    useMenuItem (example_props "cut" None None None)
      (example_state SelectNone) example_data None None None = Ok locals /\
    isDisabled locals = true /\
    List.filter is_propagation
      (onKeyDown locals {| event_key := "Enter"; event_repeat := false |}) = [].
Proof.
  eexists. split; [reflexivity|]. split; [reflexivity|].
  exact (proj1
           (onKeyDown_takes_or_propagates
              (example_props "cut" None None None)
              (example_state SelectNone) example_data None None None
              _ eq_refl {| event_key := "Enter"; event_repeat := false |})).
Defined.

Lemma aria_attributes_agree_witness :
  exists locals,
    useMenuItem (example_props "copy" None None (Some true))
      (example_state SelectSingle) example_data None None None = Ok locals /\
    (role (ariaProps locals) = menuitemradio <->
     selectionMode (example_state SelectSingle) = SelectSingle /\
     props_aria_haspopup (example_props "copy" None None (Some true)) = None).
Proof.
  eexists. split; [reflexivity|].
  exact (proj1 (proj2
           (aria_attributes_agree
              (example_props "copy" None None (Some true))
              (example_state SelectSingle) example_data None None None
              _ eq_refl))).
Defined.

End MenuItemWitnesses.

(** * Properties of the scaffolding script *)

Section CliProperties.

Import Cli.

Variable env : Env.

Ltac run_main :=
  repeat (progress (unfold andThen, call, pure, fail, includes;
                    cbn [fst snd app default
                         answer_action answer_template answer_projectName
                         answer_selectedComponents answer_includedFeatures])).

Ltac open_main := unfold main; run_main.

(** A run of [main] whose two multiselect questions were answered. *)
Lemma main_answered action template projectName picked included :
  let answers :=
    {| answer_action := action; answer_template := template;
       answer_projectName := projectName;
       answer_selectedComponents := Some picked;
       answer_includedFeatures := Some included |} in
  let creating := bool_decide (action = Some create) in
  let name := if creating then projectName else Some "." in
  let comps := expanded picked (readComponents env template) in
  let feats := expanded included (map value features) in
  snd (main env answers) = Ok tt /\
  List.filter writes_files (fst (main env answers)) =
    CopyComponents comps template name feats ::
    (if creating
     then [CopyPackageJson template name feats;
           Exec ("cd " +:+ show name +:+ " && npm install")]
     else []) /\
  length (List.filter is_prompt (fst (main env answers))) =
    (if creating then 5 else 4) /\
  last (fst (main env answers)) = Some (ProcessExit 0) /\
  (In (storybook_hint name) (fst (main env answers)) <->
   creating = true /\ "Stories" ∈ feats).
Proof.
  cbv zeta. unfold expanded. open_main.
  destruct (bool_decide (action = Some create)); run_main;
    destruct (bool_decide ("All" ∈ picked)); run_main;
    destruct (bool_decide ("All" ∈ included)); run_main;
    match goal with
    | |- context [bool_decide ("Stories" ∈ ?l)] =>
        destruct (bool_decide_reflect ("Stories" ∈ l)) as [Hs|Hs]
    | _ => idtac
    end;
    run_main;
    cbn [fst snd app List.filter writes_files is_prompt length last];
    (split_and!; [reflexivity | reflexivity | reflexivity | reflexivity |]);
    unfold storybook_hint; cbn [In];
    (split;
     [ intros H;
       repeat match goal with
              | H : _ \/ _ |- _ => destruct H
              | H : False |- _ => destruct H
              end;
       try discriminate; (split; [reflexivity | assumption])
     | intros [H1 H2]; try discriminate; try contradiction;
       repeat first [left; reflexivity | right] ]).
Qed.

(** X16. A multiselect question that comes back without its answer ends the
    script in a TypeError before anything is copied or installed and before
    [process.exit]; with both answered the script returns and its last call
    is [process.exit(0)]. *)
Theorem main_throws_iff_unanswered answers :
  match answer_selectedComponents answers, answer_includedFeatures answers with
  | Some _, Some _ =>
      snd (main env answers) = Ok tt /\
      last (fst (main env answers)) = Some (ProcessExit 0)
  | _, _ =>
      snd (main env answers) = Throw TypeError /\
      List.filter writes_files (fst (main env answers)) = [] /\
      ~ In (ProcessExit 0) (fst (main env answers))
  end.
Proof.
  destruct answers as [action template projectName [picked|] [included|]];
    cbn [answer_selectedComponents answer_includedFeatures].
  - destruct (main_answered action template projectName picked included)
      as (Hok & _ & _ & Hlast & _). now split.
  - open_main.
    destruct (bool_decide (action = Some create)); run_main;
      destruct (bool_decide ("All" ∈ picked));
      run_main; cbn [List.filter writes_files In];
      (split_and!; [reflexivity | reflexivity |]);
      intros H;
      repeat match goal with
             | H : _ \/ _ |- _ => destruct H
             | H : False |- _ => destruct H
             end; discriminate.
  - open_main.
    destruct (bool_decide (action = Some create));
      run_main; cbn [List.filter writes_files In];
      (split_and!; [reflexivity | reflexivity |]);
      intros H;
      repeat match goal with
             | H : _ \/ _ |- _ => destruct H
             | H : False |- _ => destruct H
             end; discriminate.
  - open_main.
    destruct (bool_decide (action = Some create));
      run_main; cbn [List.filter writes_files In];
      (split_and!; [reflexivity | reflexivity |]);
      intros H;
      repeat match goal with
             | H : _ \/ _ |- _ => destruct H
             | H : False |- _ => destruct H
             end; discriminate.
Qed.

Ltac no_such_line H :=
  unfold storybook_hint in H; cbn [In] in H;
  repeat match type of H with
         | _ \/ _ => destruct H as [H|H]; [discriminate H|]
         end;
  first [exact H | discriminate H].

(** The questions of a run whose two multiselect questions were answered. *)
Lemma main_answered_asked action template projectName picked included :
  let answers :=
    {| answer_action := action; answer_template := template;
       answer_projectName := projectName;
       answer_selectedComponents := Some picked;
       answer_includedFeatures := Some included |} in
  let creating := bool_decide (action = Some create) in
  asked (fst (main env answers)) =
    ["action"; "template"]
    ++ (if creating then ["projectName"] else [])
    ++ ["selectedComponents"; "includedFeatures"] /\
  List.filter is_setup (fst (main env answers)) =
    List.filter is_setup (List.filter writes_files (fst (main env answers))) /\
  (creating = false ->
   forall n, ~ In (storybook_hint n) (fst (main env answers))).
Proof.
  cbv zeta. open_main.
  destruct (bool_decide (action = Some create)); run_main;
    destruct (bool_decide ("All" ∈ picked)); run_main;
    destruct (bool_decide ("All" ∈ included)); run_main;
    match goal with
    | |- context [bool_decide ("Stories" ∈ ?l)] =>
        destruct (bool_decide ("Stories" ∈ l))
    | _ => idtac
    end;
    run_main;
    cbn [fst snd app List.filter writes_files is_setup asked flat_map name];
    (split_and!; [reflexivity | reflexivity |]);
    intros Hc; try discriminate Hc; intros n H; no_such_line H.
Qed.

(** A run of [main] in which a multiselect question was left unanswered. *)
Lemma main_unanswered action template projectName sel inc :
  sel = None \/ inc = None ->
  let answers :=
    {| answer_action := action; answer_template := template;
       answer_projectName := projectName;
       answer_selectedComponents := sel;
       answer_includedFeatures := inc |} in
  let creating := bool_decide (action = Some create) in
  snd (main env answers) = Throw TypeError /\
  List.filter writes_files (fst (main env answers)) = [] /\
  List.filter is_setup (fst (main env answers)) = [] /\
  asked (fst (main env answers)) =
    ["action"; "template"]
    ++ (if creating then ["projectName"] else [])
    ++ "selectedComponents"
       :: match sel with
          | Some _ => ["includedFeatures"]
          | None => []
          end /\
  forall n, ~ In (storybook_hint n) (fst (main env answers)).
Proof.
  intros Hnone. cbv zeta.
  destruct sel as [picked|].
  - destruct inc as [included|]; [now destruct Hnone|].
    open_main.
    destruct (bool_decide (action = Some create)); run_main;
      destruct (bool_decide ("All" ∈ picked)); run_main;
      cbn [fst snd app List.filter writes_files is_setup asked flat_map name];
      (split_and!; [reflexivity | reflexivity | reflexivity | reflexivity |]);
      intros n H; no_such_line H.
  - open_main.
    destruct (bool_decide (action = Some create)); run_main;
      cbn [fst snd app List.filter writes_files is_setup asked flat_map name];
      (split_and!; [reflexivity | reflexivity | reflexivity | reflexivity |]);
      intros n H; no_such_line H.
Qed.

Lemma length_filter_is_prompt made :
  length (List.filter is_prompt made) = length (asked made).
Proof.
  unfold asked. induction made as [|e rest IH]; [reflexivity|].
  destruct e; cbn [List.filter is_prompt flat_map app length];
    now rewrite ?IH.
Qed.

(** X17. Adding components to an existing project never asks the project
    name, never copies a package.json, never runs a command and never
    mentions Storybook, whatever was answered.  The questions are the
    action, the template and the components, and the features once the
    components were answered.  With both multiselect questions answered the
    components are copied, once, into ["."]; with one of them unanswered
    nothing is copied. *)
Theorem adding_components_skips_project_setup answers :
  answer_action answers <> Some create ->
  List.filter writes_files (fst (main env answers)) =
    match answer_selectedComponents answers,
          answer_includedFeatures answers with
    | Some picked, Some included =>
        [CopyComponents
           (expanded picked (readComponents env (answer_template answers)))
           (answer_template answers) (Some ".")
           (expanded included (map value features))]
    | _, _ => []
    end /\
  List.filter is_setup (fst (main env answers)) = [] /\
  asked (fst (main env answers)) =
    ["action"; "template"; "selectedComponents"]
    ++ match answer_selectedComponents answers with
       | Some _ => ["includedFeatures"]
       | None => []
       end /\
  length (List.filter is_prompt (fst (main env answers))) =
    match answer_selectedComponents answers with
    | Some _ => 4
    | None => 3
    end /\
  forall n, ~ In (storybook_hint n) (fst (main env answers)).
Proof.
  destruct answers as [action template projectName sel inc].
  cbn [answer_action answer_selectedComponents answer_includedFeatures
       answer_template].
  intros Hadd. rewrite length_filter_is_prompt.
  assert (Hcases : (exists picked included,
                      sel = Some picked /\ inc = Some included)
                   \/ sel = None \/ inc = None).
  { destruct sel as [picked|]; [|now right; left].
    destruct inc as [included|]; [|now right; right].
    left. now exists picked, included. }
  destruct Hcases as [(picked & included & -> & ->)|Hnone].
  - destruct (main_answered action template projectName picked included)
      as (_ & Hfiles & _).
    destruct (main_answered_asked action template projectName picked included)
      as (Hasked & Hsetup & Hhint).
    rewrite (bool_decide_eq_false_2 _ Hadd) in *.
    rewrite Hsetup, Hfiles, Hasked.
    split_and!; try reflexivity. now apply Hhint.
  - destruct (main_unanswered action template projectName sel inc Hnone)
      as (_ & Hfiles & Hsetup & Hasked & Hhint).
    rewrite (bool_decide_eq_false_2 _ Hadd) in *.
    rewrite Hfiles, Hsetup, Hasked.
    split_and!; try reflexivity; try exact Hhint.
    + destruct Hnone as [-> | ->]; [reflexivity | now destruct sel].
    + now destruct sel.
Qed.

(** X18. Creating a library asks the action, the template, the project name
    and the components, and the features once the components were answered.
    With both multiselect questions answered it copies the components, then
    the package.json, then runs [npm install] in the project directory, in
    that order and once each, with the same template, name and features;
    with one of them unanswered it copies and runs nothing.  The Storybook
    line is printed exactly when both were answered and Stories or All was
    ticked among the features. *)
Theorem creating_a_library_copies_then_installs answers :
  answer_action answers = Some create ->
  let name := answer_projectName answers in
  let template := answer_template answers in
  List.filter writes_files (fst (main env answers)) =
    match answer_selectedComponents answers,
          answer_includedFeatures answers with
    | Some picked, Some included =>
        [CopyComponents (expanded picked (readComponents env template))
           template name (expanded included (map value features));
         CopyPackageJson template name
           (expanded included (map value features));
         Exec ("cd " +:+ show name +:+ " && npm install")]
    | _, _ => []
    end /\
  asked (fst (main env answers)) =
    ["action"; "template"; "projectName"; "selectedComponents"]
    ++ match answer_selectedComponents answers with
       | Some _ => ["includedFeatures"]
       | None => []
       end /\
  length (List.filter is_prompt (fst (main env answers))) =
    match answer_selectedComponents answers with
    | Some _ => 5
    | None => 4
    end /\
  (In (storybook_hint name) (fst (main env answers)) <->
   exists picked included,
     answer_selectedComponents answers = Some picked /\
     answer_includedFeatures answers = Some included /\
     ("All" ∈ included \/ "Stories" ∈ included)).
Proof.
  destruct answers as [action template projectName sel inc].
  cbn [answer_action answer_selectedComponents answer_includedFeatures
       answer_template answer_projectName].
  intros ->. cbv zeta. rewrite length_filter_is_prompt.
  assert (Hcases : (exists picked included,
                      sel = Some picked /\ inc = Some included)
                   \/ sel = None \/ inc = None).
  { destruct sel as [picked|]; [|now right; left].
    destruct inc as [included|]; [|now right; right].
    left. now exists picked, included. }
  destruct Hcases as [(picked & included & -> & ->)|Hnone].
  - destruct (main_answered (Some create) template projectName picked
                included) as (_ & Hfiles & _ & _ & Hhint).
    destruct (main_answered_asked (Some create) template projectName picked
                included) as (Hasked & _).
    rewrite (bool_decide_eq_true_2 (Some create = Some create) eq_refl) in *.
    rewrite Hfiles, Hasked.
    split_and!; try reflexivity.
    rewrite Hhint. unfold expanded.
    destruct (bool_decide_reflect ("All" ∈ included)) as [Hall|Hall].
    + split.
      * intros _. exists picked, included. split_and!; try reflexivity.
        now left.
      * intros _. split; [reflexivity|].
        cbn. apply list_elem_of_In. cbn. auto.
    + split.
      * intros [_ Hs]. exists picked, included.
        split_and!; try reflexivity. now right.
      * intros (picked' & included' & _ & Hi & Ht).
        injection Hi as <-. destruct Ht as [?|?];
          [contradiction | now split].
  - destruct (main_unanswered (Some create) template projectName sel inc
                Hnone) as (_ & Hfiles & _ & Hasked & Hhint).
    rewrite (bool_decide_eq_true_2 (Some create = Some create) eq_refl) in *.
    rewrite Hfiles, Hasked.
    split_and!.
    + destruct Hnone as [-> | ->]; [reflexivity | now destruct sel].
    + reflexivity.
    + now destruct sel.
    + split; [intros Hin; now apply Hhint in Hin|].
      intros (picked & included & Hs & Hi & _).
      destruct Hnone; congruence.
Qed.

(** X19. With All ticked the other ticks make no difference: two runs whose
    answers agree except for what else was ticked beside All, among the
    components and among the features, make the same calls and end the
    same way. *)
Theorem All_overrides_other_ticks a1 a2 picked1 picked2 included1 included2 :
  answer_action a1 = answer_action a2 ->
  answer_template a1 = answer_template a2 ->
  answer_projectName a1 = answer_projectName a2 ->
  answer_selectedComponents a1 = Some picked1 ->
  answer_selectedComponents a2 = Some picked2 ->
  answer_includedFeatures a1 = Some included1 ->
  answer_includedFeatures a2 = Some included2 ->
  "All" ∈ picked1 -> "All" ∈ picked2 ->
  "All" ∈ included1 -> "All" ∈ included2 ->
  main env a1 = main env a2.
Proof.
  destruct a1 as [action1 template1 name1 sel1 inc1].
  destruct a2 as [action2 template2 name2 sel2 inc2].
  cbn [answer_action answer_template answer_projectName
       answer_selectedComponents answer_includedFeatures].
  intros -> -> -> -> -> -> -> Hp1 Hp2 Hi1 Hi2.
  open_main.
  destruct (bool_decide (action2 = Some create)); run_main;
    rewrite (bool_decide_eq_true_2 _ Hp1), (bool_decide_eq_true_2 _ Hp2);
    run_main;
    rewrite (bool_decide_eq_true_2 _ Hi1), (bool_decide_eq_true_2 _ Hi2);
    run_main; reflexivity.
Qed.

End CliProperties.

Section CliWitnesses.

Import Cli.

Lemma adding_components_skips_project_setup_witness :
  answer_action (example_answers "Add components" ["All"; "Menu"] ["Docs"])
    <> Some create /\
  List.filter writes_files
    (fst (main example_env
            (example_answers "Add components" ["All"; "Menu"] ["Docs"]))) =
    [CopyComponents ["Button"; "Menu"; "Select"] (Some "tailwind") (Some ".")
       ["Docs"]].
Proof.
  split; [discriminate|].
  exact (proj1 (adding_components_skips_project_setup example_env
                  (example_answers "Add components" ["All"; "Menu"] ["Docs"])
                  ltac:(discriminate))).
Defined.

Lemma creating_a_library_copies_then_installs_witness :
  answer_action (example_answers "Create a new library" ["Menu"] ["All"])
    = Some create /\
  List.filter writes_files
    (fst (main example_env
            (example_answers "Create a new library" ["Menu"] ["All"]))) =
    [CopyComponents ["Menu"] (Some "tailwind") (Some "my-lib")
       ["Tests"; "Stories"; "Docs"];
     CopyPackageJson (Some "tailwind") (Some "my-lib")
       ["Tests"; "Stories"; "Docs"];
     Exec "cd my-lib && npm install"].
Proof.
  split; [reflexivity|].
  exact (proj1 (creating_a_library_copies_then_installs example_env
                  (example_answers "Create a new library" ["Menu"] ["All"])
                  eq_refl)).
Defined.

Lemma All_overrides_other_ticks_witness :
  "All" ∈ ["All"; "Menu"] /\ "All" ∈ ["All"] /\
  main example_env (example_answers "Add components" ["All"; "Menu"] ["All"]) =
  main example_env (example_answers "Add components" ["All"] ["Docs"; "All"]).
Proof.
  assert (H1 : "All" ∈ ["All"; "Menu"]) by (apply list_elem_of_In; cbn; auto).
  assert (H2 : "All" ∈ ["All"]) by (apply list_elem_of_In; cbn; auto).
  assert (H3 : "All" ∈ ["Docs"; "All"]) by (apply list_elem_of_In; cbn; auto).
  split; [exact H1|]. split; [exact H2|].
  exact (All_overrides_other_ticks example_env
           (example_answers "Add components" ["All"; "Menu"] ["All"])
           (example_answers "Add components" ["All"] ["Docs"; "All"])
           _ _ _ _ eq_refl eq_refl eq_refl eq_refl eq_refl eq_refl eq_refl
           H1 H2 H2 H3).
Defined.

End CliWitnesses.
